(** * RPiCameraPlugin: the zmq command server and the camera controller

    Shallow embedding of [Python/rpicamera/controller.py]:
    the serving loop [ZmqThread.run] and the [Controller] class it drives.

    The module is Python 2 code (byte strings on the socket, [print_function]
    imported from [__future__]).  Exceptions are explicit results, the mutable
    objects ([Controller], the camera, the file system, the socket) are fields
    of one world that every operation threads through, and every externally
    visible action is appended to an event log. *)

From Stdlib Require Import ZArith QArith String Ascii List Bool Lia DecimalString.
Import ListNotations.

Local Open Scope string_scope.
Local Open Scope Z_scope.

(* ================================================================= *)
(** ** Python builtins used by the module *)

Module Py.

(** The exceptions that the modelled code can raise. *)
Inductive exn : Type :=
| IndexError | ValueError | TypeError | NameError | AttributeError
| OSError | IOError.

Inductive Result (A : Type) : Type :=
| Ok (a : A)
| Raise (e : exn).
Arguments Ok {A} a.
Arguments Raise {A} e.

(** A Python [float] as far as ordering can see it: a finite value, one of
    the two infinities, or NaN. *)
Inductive pyfloat : Type :=
| NaN
| NegInf
| Fin (q : Q)
| PosInf.

(** [a < b] on floats; every comparison with NaN is false. *)
Definition flt (a b : pyfloat) : bool :=
  match a, b with
  | NaN, _ | _, NaN => false
  | _, NegInf => false
  | NegInf, _ => true
  | PosInf, _ => false
  | Fin _, PosInf => true
  | Fin p, Fin q => negb (Qle_bool q p)
  end.

(** [a <= b] on floats. *)
Definition fle (a b : pyfloat) : bool :=
  match a, b with
  | NaN, _ | _, NaN => false
  | NegInf, _ => true
  | _, PosInf => true
  | _, NegInf => false
  | PosInf, _ => false
  | Fin p, Fin q => Qle_bool p q
  end.

Definition fgt (a b : pyfloat) : bool := flt b a.
Definition fge (a b : pyfloat) : bool := fle b a.

Definition of_Z (z : Z) : pyfloat := Fin (inject_Z z).

(** [min(xs)]: the first element is kept until a later one compares
    strictly smaller; [ValueError] on the empty sequence. *)
Definition py_min (xs : list pyfloat) : Result pyfloat :=
  match xs with
  | [] => Raise ValueError
  | x :: rest =>
      Ok (fold_left (fun cur item => if flt item cur then item else cur) rest x)
  end.

(** [max(xs)]: the first element is kept until a later one compares
    strictly greater. *)
Definition py_max (xs : list pyfloat) : Result pyfloat :=
  match xs with
  | [] => Raise ValueError
  | x :: rest =>
      Ok (fold_left (fun cur item => if fgt item cur then item else cur) rest x)
  end.

(** *** Strings *)

Definition is_space (c : ascii) : bool :=
  let n := nat_of_ascii c in
  (Nat.eqb n 32 || (Nat.leb 9 n && Nat.leb n 13))%bool.

(** [s.split()]: maximal runs of non-whitespace characters.  [cur] is the
    run being read, in reverse. *)
Fixpoint split_ws_aux (cs : list ascii) (cur : list ascii) : list string :=
  match cs with
  | [] => match cur with
          | [] => []
          | _ => [string_of_list_ascii (rev cur)]
          end
  | c :: cs' =>
      if is_space c then
        match cur with
        | [] => split_ws_aux cs' []
        | _ => string_of_list_ascii (rev cur) :: split_ws_aux cs' []
        end
      else split_ws_aux cs' (c :: cur)
  end.

Definition split_ws (s : string) : list string :=
  split_ws_aux (list_ascii_of_string s) [].

(** [s.split(sep)] for a one-character separator: always at least one
    field, empty fields are kept. *)
Fixpoint split_char_aux (sep : ascii) (cs : list ascii) (cur : list ascii)
  : list string :=
  match cs with
  | [] => [string_of_list_ascii (rev cur)]
  | c :: cs' =>
      if Ascii.eqb c sep
      then string_of_list_ascii (rev cur) :: split_char_aux sep cs' []
      else split_char_aux sep cs' (c :: cur)
  end.

Definition split_char (sep : ascii) (s : string) : list string :=
  split_char_aux sep (list_ascii_of_string s) [].

(** [xs[i]] for a non-negative index. *)
Definition index {A : Type} (xs : list A) (i : nat) : Result A :=
  match nth_error xs i with
  | Some x => Ok x
  | None => Raise IndexError
  end.

(** [xs[-1]]. *)
Definition index_last {A : Type} (xs : list A) : Result A :=
  match rev xs with
  | x :: _ => Ok x
  | [] => Raise IndexError
  end.

(** *** Numbers from and to text *)

Definition digit_val (c : ascii) : option Z :=
  let n := nat_of_ascii c in
  if (Nat.leb 48 n && Nat.leb n 57)%bool then Some (Z.of_nat (n - 48)) else None.

(** Reads the longest prefix of decimal digits: its value (accumulated on
    [acc]), how many digits were read, and what follows. *)
Fixpoint read_digits (cs : list ascii) (acc : Z) (count : nat)
  : Z * nat * list ascii :=
  match cs with
  | [] => (acc, count, [])
  | c :: cs' =>
      match digit_val c with
      | Some d => read_digits cs' (10 * acc + d) (S count)
      | None => (acc, count, cs)
      end
  end.

(** An optional leading sign; [true] stands for a minus. *)
Definition read_sign (cs : list ascii) : bool * list ascii :=
  match cs with
  | "-"%char :: cs' => (true, cs')
  | "+"%char :: cs' => (false, cs')
  | _ => (false, cs)
  end.

(** [int(s)] on a token without surrounding blanks: an optional sign and
    one or more decimal digits, anything else is a [ValueError]. *)
Definition py_int (s : string) : Result Z :=
  let '(neg, cs) := read_sign (list_ascii_of_string s) in
  match read_digits cs 0 0 with
  | (_, O, _) => Raise ValueError
  | (v, S _, []) => Ok (if neg then - v else v)
  | (_, S _, _ :: _) => Raise ValueError
  end.

Definition lower (c : ascii) : ascii :=
  let n := nat_of_ascii c in
  if (Nat.leb 65 n && Nat.leb n 90)%bool then ascii_of_nat (n + 32) else c.

Definition lower_string (cs : list ascii) : string :=
  string_of_list_ascii (map lower cs).

(** The exponent part of a float literal: nothing, or [e]/[E], an optional
    sign and one or more digits. *)
Definition read_exponent (cs : list ascii) : Result Z :=
  match cs with
  | [] => Ok 0
  | c :: cs' =>
      if Ascii.eqb (lower c) "e"%char then
        let '(neg, ds) := read_sign cs' in
        match read_digits ds 0 0 with
        | (v, S _, []) => Ok (if neg then - v else v)
        | _ => Raise ValueError
        end
      else Raise ValueError
  end.

(** [float(s)] on a token without surrounding blanks.  The finite result is
    the exact value the literal denotes; [inf], [infinity] and [nan] are
    accepted in any letter case. *)
Definition py_float (s : string) : Result pyfloat :=
  let '(neg, cs) := read_sign (list_ascii_of_string s) in
  let name := lower_string cs in
  if String.eqb name "nan" then Ok NaN
  else if (String.eqb name "inf" || String.eqb name "infinity")%bool
  then Ok (if neg then NegInf else PosInf)
  else
    let '(ip, ni, rest) := read_digits cs 0 0 in
    let '(mant, nf, rest') :=
      match rest with
      | "."%char :: fs => read_digits fs ip 0
      | _ => (ip, O, rest)
      end in
    match (ni + nf)%nat with
    | O => Raise ValueError
    | S _ =>
        match read_exponent rest' with
        | Ok e =>
            let q := (inject_Z mant * Qpower (inject_Z 10) (e - Z.of_nat nf))%Q in
            Ok (Fin (Qred (if neg then Qopp q else q)))
        | Raise x => Raise x
        end
    end.

(** ['{}'.format(n)] for an integer. *)
Definition str_of_int (n : Z) : string :=
  NilZero.string_of_int (Z.to_int n).

(** Nearest integer to a non-negative rational, ties to even. *)
Definition round_half_even (q : Q) : Z :=
  let n := Qnum q in
  let d := Zpos (Qden q) in
  let fl := n / d in
  let r2 := 2 * (n mod d) in
  if r2 <? d then fl
  else if d <? r2 then fl + 1
  else if Z.even fl then fl else fl + 1.

(** [s] filled on the left with zeros up to [width] characters. *)
Definition pad_zeros (width : nat) (s : string) : string :=
  string_of_list_ascii (repeat "0"%char (width - String.length s)) ++ s.

(** ['{:.6f}'.format(x)]. *)
Definition format_6f (x : pyfloat) : string :=
  match x with
  | NaN => "nan"
  | PosInf => "inf"
  | NegInf => "-inf"
  | Fin q =>
      let neg := negb (Qle_bool 0 q) in
      let n := round_half_even ((if neg then Qopp q else q) * inject_Z 1000000)%Q in
      (if neg then "-" else "")
        ++ str_of_int (n / 1000000) ++ "."
        ++ pad_zeros 6 (str_of_int (n mod 1000000))
  end.

(** *** [os.path] on POSIX *)

Definition starts_with_sep (s : string) : bool :=
  match s with
  | String "/" _ => true
  | _ => false
  end.

Definition ends_with_sep (s : string) : bool :=
  match rev (list_ascii_of_string s) with
  | "/"%char :: _ => true
  | _ => false
  end.

(** [os.path.join(a, b)]. *)
Definition path_join (a b : string) : string :=
  if starts_with_sep b then b
  else if (String.eqb a "" || ends_with_sep a)%bool then a ++ b
  else a ++ "/" ++ b.

End Py.

Import Py.

(* ================================================================= *)
(** ** The camera *)

Module Camera.

(** Modelled from the spec: the camera class [CameraGPIO] of
    [rpicamera/camera.py], the Device of the capability interface: the
    attributes the controller reads and writes, the status flags
    [recording], [previewing] and [closed], and the start/stop/close
    operations that move those flags. *)
Record t : Type := mk {
  framerate : pyfloat;
  resolution : Z * Z;
  vflip : bool;
  hflip : bool;
  zoom : list pyfloat;
  awb_mode : string;
  awb_gains : list pyfloat;
  exposure_mode : string;
  shutter_speed : Z;
  exposure_speed : Z;
  brightness : Z;
  sync_mode : bool;
  wait_for_trigger : bool;
  trigger_timeout : pyfloat;
  recording : bool;
  previewing : bool;
  closed : bool
}.

Definition set_framerate (v : pyfloat) (c : t) : t :=
  mk v (resolution c) (vflip c) (hflip c) (zoom c) (awb_mode c) (awb_gains c)
     (exposure_mode c) (shutter_speed c) (exposure_speed c) (brightness c)
     (sync_mode c) (wait_for_trigger c) (trigger_timeout c)
     (recording c) (previewing c) (closed c).

Definition set_resolution (v : Z * Z) (c : t) : t :=
  mk (framerate c) v (vflip c) (hflip c) (zoom c) (awb_mode c) (awb_gains c)
     (exposure_mode c) (shutter_speed c) (exposure_speed c) (brightness c)
     (sync_mode c) (wait_for_trigger c) (trigger_timeout c)
     (recording c) (previewing c) (closed c).

Definition set_vflip (v : bool) (c : t) : t :=
  mk (framerate c) (resolution c) v (hflip c) (zoom c) (awb_mode c) (awb_gains c)
     (exposure_mode c) (shutter_speed c) (exposure_speed c) (brightness c)
     (sync_mode c) (wait_for_trigger c) (trigger_timeout c)
     (recording c) (previewing c) (closed c).

Definition set_hflip (v : bool) (c : t) : t :=
  mk (framerate c) (resolution c) (vflip c) v (zoom c) (awb_mode c) (awb_gains c)
     (exposure_mode c) (shutter_speed c) (exposure_speed c) (brightness c)
     (sync_mode c) (wait_for_trigger c) (trigger_timeout c)
     (recording c) (previewing c) (closed c).

Definition set_zoom (v : list pyfloat) (c : t) : t :=
  mk (framerate c) (resolution c) (vflip c) (hflip c) v (awb_mode c) (awb_gains c)
     (exposure_mode c) (shutter_speed c) (exposure_speed c) (brightness c)
     (sync_mode c) (wait_for_trigger c) (trigger_timeout c)
     (recording c) (previewing c) (closed c).

Definition set_awb_mode (v : string) (c : t) : t :=
  mk (framerate c) (resolution c) (vflip c) (hflip c) (zoom c) v (awb_gains c)
     (exposure_mode c) (shutter_speed c) (exposure_speed c) (brightness c)
     (sync_mode c) (wait_for_trigger c) (trigger_timeout c)
     (recording c) (previewing c) (closed c).

Definition set_awb_gains (v : list pyfloat) (c : t) : t :=
  mk (framerate c) (resolution c) (vflip c) (hflip c) (zoom c) (awb_mode c) v
     (exposure_mode c) (shutter_speed c) (exposure_speed c) (brightness c)
     (sync_mode c) (wait_for_trigger c) (trigger_timeout c)
     (recording c) (previewing c) (closed c).

Definition set_exposure_mode (v : string) (c : t) : t :=
  mk (framerate c) (resolution c) (vflip c) (hflip c) (zoom c) (awb_mode c)
     (awb_gains c) v (shutter_speed c) (exposure_speed c) (brightness c)
     (sync_mode c) (wait_for_trigger c) (trigger_timeout c)
     (recording c) (previewing c) (closed c).

Definition set_shutter_speed (v : Z) (c : t) : t :=
  mk (framerate c) (resolution c) (vflip c) (hflip c) (zoom c) (awb_mode c)
     (awb_gains c) (exposure_mode c) v (exposure_speed c) (brightness c)
     (sync_mode c) (wait_for_trigger c) (trigger_timeout c)
     (recording c) (previewing c) (closed c).

Definition set_recording (v : bool) (c : t) : t :=
  mk (framerate c) (resolution c) (vflip c) (hflip c) (zoom c) (awb_mode c)
     (awb_gains c) (exposure_mode c) (shutter_speed c) (exposure_speed c)
     (brightness c) (sync_mode c) (wait_for_trigger c) (trigger_timeout c)
     v (previewing c) (closed c).

Definition set_previewing (v : bool) (c : t) : t :=
  mk (framerate c) (resolution c) (vflip c) (hflip c) (zoom c) (awb_mode c)
     (awb_gains c) (exposure_mode c) (shutter_speed c) (exposure_speed c)
     (brightness c) (sync_mode c) (wait_for_trigger c) (trigger_timeout c)
     (recording c) v (closed c).

Definition set_closed (v : bool) (c : t) : t :=
  mk (framerate c) (resolution c) (vflip c) (hflip c) (zoom c) (awb_mode c)
     (awb_gains c) (exposure_mode c) (shutter_speed c) (exposure_speed c)
     (brightness c) (sync_mode c) (wait_for_trigger c) (trigger_timeout c)
     (recording c) (previewing c) v.

End Camera.

(* ================================================================= *)
(** ** The world the module acts on *)

(** The dictionary [params] that [start_recording] dumps as JSON. *)
Record Params : Type := mkParams {
  p_rec_path : string;
  p_experiment : Z;
  p_recording : Z;
  p_video_path : string;
  p_width : Z;
  p_height : Z;
  p_framerate : pyfloat;
  p_sync_mode : bool;
  p_wait_for_trigger : bool;
  p_trigger_timeout : pyfloat;
  p_awb_mode : string;
  p_awb_gains : list pyfloat;
  p_brightness : Z;
  p_zoom : list pyfloat;
  p_vflip : bool;
  p_hflip : bool
}.

(** The file system as the module sees it: the paths that exist as
    directories, the parameter files written so far (latest first), and the
    paths the operating system refuses to create or open for writing. *)
Record FileSystem : Type := mkFS {
  fs_dirs : list string;
  fs_files : list (string * Params);
  fs_denied : list string
}.

(** Everything observable from outside, in the order it happened. *)
Inductive Event : Type :=
| Send (reply : string)
| Sleep (seconds : Q)
| CamStartPreview
| CamStopPreview
| CamStartRecording (video_path : string) (quality : Z)
| CamStopRecording
| CamClose
| MakeDirs (path : string)
| WriteFile (path : string).

(** The attributes of a [Controller] object. *)
Record Controller : Type := mkController {
  data_path : string;
  closed : bool;
  camera : option Camera.t
}.

Record World : Type := mkWorld {
  controller : Controller;
  fs : FileSystem;
  is_running : bool;
  log : list Event
}.

(** *** State and exceptions *)

(** A computation reads and updates the world and either returns or raises;
    what it did to the world before raising stays done. *)
Definition M (A : Type) : Type := World -> Result A * World.

Definition ret {A : Type} (a : A) : M A := fun w => (Ok a, w).

Definition bind {A B : Type} (m : M A) (k : A -> M B) : M B :=
  fun w =>
    match m w with
    | (Ok a, w') => k a w'
    | (Raise e, w') => (Raise e, w')
    end.

Definition raise {A : Type} (e : exn) : M A := fun w => (Raise e, w).

Definition lift {A : Type} (r : Result A) : M A := fun w => (r, w).

Notation "x <- m ;; k" := (bind m (fun x => k))
  (at level 61, m at next level, right associativity).
Notation "m ;; k" := (bind m (fun _ => k))
  (at level 61, right associativity).

Definition when (b : bool) (m : M unit) : M unit :=
  if b then m else ret tt.

Definition emit (e : Event) : M unit :=
  fun w => (Ok tt, mkWorld (controller w) (fs w) (is_running w) (log w ++ [e])).

Definition set_controller (c : Controller) (w : World) : World :=
  mkWorld c (fs w) (is_running w) (log w).

Definition set_fs (f : FileSystem) (w : World) : World :=
  mkWorld (controller w) f (is_running w) (log w).

Definition set_is_running (b : bool) (w : World) : World :=
  mkWorld (controller w) (fs w) b (log w).

(** [time.sleep(seconds)]. *)
Definition sleep (seconds : Q) : M unit := emit (Sleep seconds).

(** *** [os], [os.path], [open] and [json.dump] *)

Definition mem (p : string) (ps : list string) : bool :=
  existsb (String.eqb p) ps.

(** [os.path.exists(p)]. *)
Definition path_exists (p : string) : M bool :=
  fun w => (Ok (mem p (fs_dirs (fs w)) || mem p (map fst (fs_files (fs w))))%bool, w).

(** [os.makedirs(p)]: [OSError] where the system refuses. *)
Definition makedirs (p : string) : M unit :=
  fun w =>
    if mem p (fs_denied (fs w)) then (Raise OSError, w)
    else
      let f := fs w in
      emit (MakeDirs p) (set_fs (mkFS (p :: fs_dirs f) (fs_files f) (fs_denied f)) w).

(** [with open(p, 'w') as f: json.dump(params, f, ...)]: [IOError] where the
    file cannot be opened for writing. *)
Definition write_json (p : string) (params : Params) : M unit :=
  fun w =>
    if mem p (fs_denied (fs w)) then (Raise IOError, w)
    else
      let f := fs w in
      emit (WriteFile p)
           (set_fs (mkFS (fs_dirs f) ((p, params) :: fs_files f) (fs_denied f)) w).

(** What was last written to the file at [p]. *)
Definition read_json (p : string) (f : FileSystem) : option Params :=
  match find (fun e => String.eqb p (fst e)) (fs_files f) with
  | Some e => Some (snd e)
  | None => None
  end.

(** *** Access to [self.camera] *)

(** [self.camera]. *)
Definition self_camera : M (option Camera.t) :=
  fun w => (Ok (camera (controller w)), w).

(** [self.camera = v]. *)
Definition set_self_camera (v : option Camera.t) : M unit :=
  fun w =>
    let c := controller w in
    (Ok tt, set_controller (mkController (data_path c) (closed c) v) w).

(** [self.camera.attr]; on [None] the attribute lookup fails. *)
Definition cam_get {A : Type} (attr : Camera.t -> A) : M A :=
  cam <- self_camera ;;
  match cam with
  | Some c => ret (attr c)
  | None => raise AttributeError
  end.

(** [self.camera.attr = v], the camera object being updated in place. *)
Definition cam_set (update : Camera.t -> Camera.t) : M unit :=
  cam <- self_camera ;;
  match cam with
  | Some c => set_self_camera (Some (update c))
  | None => raise AttributeError
  end.

(** The camera's own methods. *)
Definition cam_start_preview : M unit :=
  emit CamStartPreview ;; cam_set (Camera.set_previewing true).

Definition cam_stop_preview : M unit :=
  emit CamStopPreview ;; cam_set (Camera.set_previewing false).

Definition cam_start_recording (video_path : string) (quality : Z) : M unit :=
  emit (CamStartRecording video_path quality) ;; cam_set (Camera.set_recording true).

Definition cam_stop_recording : M unit :=
  emit CamStopRecording ;; cam_set (Camera.set_recording false).

Definition cam_close : M unit :=
  emit CamClose ;; cam_set (Camera.set_closed true).

(** Name resolution inside a function body: a name that is neither a local
    nor a module-level name (and no builtin) raises [NameError]. *)
Definition lookup_name (scope : list string) (name : string) : M unit :=
  if mem name scope then ret tt else raise NameError.

(** The names bound at module level in [controller.py]. *)
Definition module_globals : list string :=
  ["print_function"; "os"; "op"; "time"; "traceback"; "json"; "threading";
   "zmq"; "CameraGPIO"; "ZmqThread"; "Controller"].

(* ================================================================= *)
(** ** class Controller *)

(** [Controller.__init__(data_path, **kwargs)].  [construct] is what
    the call of [CameraGPIO] does: it returns a camera or raises; the
    [except BaseException] clause turns any exception into
    [self.camera = None]. *)
Definition Controller_init (data_path : string) (construct : Result Camera.t)
  : Result Controller :=
  match construct with
  | Ok cam => Ok (mkController data_path false (Some cam))
  | Raise _ => Ok (mkController data_path false None)
  end.

(** The properties: a getter falls off its end (returns [None]) when there
    is no camera. *)
Definition property {A : Type} (attr : Camera.t -> A) : M (option A) :=
  cam <- self_camera ;;
  match cam with
  | Some c => ret (Some (attr c))
  | None => ret None
  end.

Definition framerate : M (option pyfloat) := property Camera.framerate.
Definition resolution : M (option (Z * Z)) := property Camera.resolution.
Definition vflip : M (option bool) := property Camera.vflip.
Definition hflip : M (option bool) := property Camera.hflip.
Definition zoom : M (option (list pyfloat)) := property Camera.zoom.

(** [self.camera is not None and not self.camera.recording]. *)
Definition camera_idle : M bool :=
  cam <- self_camera ;;
  match cam with
  | Some c => ret (negb (Camera.recording c))
  | None => ret false
  end.

Definition framerate_setter (fps : pyfloat) : M unit :=
  idle <- camera_idle ;;
  when idle (cam_set (Camera.set_framerate fps)).

Definition resolution_setter (xy : Z * Z) : M unit :=
  idle <- camera_idle ;;
  when idle (cam_set (Camera.set_resolution xy)).

Definition vflip_setter (status : bool) : M unit :=
  idle <- camera_idle ;;
  when idle (cam_set (Camera.set_vflip status)).

Definition hflip_setter (status : bool) : M unit :=
  idle <- camera_idle ;;
  when idle (cam_set (Camera.set_hflip status)).

(** [len(coords) == 4 and min(coords) >= 0 and max(coords) <= 1], with the
    short-circuit evaluation of [and]. *)
Definition zoom_guard (coords : list pyfloat) : Result bool :=
  if Nat.eqb (length coords) 4 then
    match py_min coords with
    | Ok lo =>
        if fge lo (of_Z 0) then
          match py_max coords with
          | Ok hi => Ok (fle hi (of_Z 1))
          | Raise e => Raise e
          end
        else Ok false
    | Raise e => Raise e
    end
  else Ok false.

Definition zoom_setter (coords : list pyfloat) : M unit :=
  cam <- self_camera ;;
  match cam with
  | Some _ =>
      ok <- lift (zoom_guard coords) ;;
      when ok (cam_set (Camera.set_zoom coords))
  | None => ret tt
  end.

(** [self.camera is not None and self.camera.recording]. *)
Definition is_recording : M bool :=
  cam <- self_camera ;;
  match cam with
  | Some c => ret (Camera.recording c)
  | None => ret false
  end.

(** [self.closed = True]. *)
Definition set_self_closed : M unit :=
  fun w =>
    let c := controller w in
    (Ok tt, set_controller (mkController (data_path c) true (camera c)) w).

Definition cleanup : M unit :=
  cam <- self_camera ;;
  match cam with
  | Some _ =>
      r <- cam_get Camera.recording ;;
      when r cam_stop_recording ;;
      p <- cam_get Camera.previewing ;;
      when p cam_stop_preview ;;
      c <- cam_get Camera.closed ;;
      when (negb c) cam_close ;;
      set_self_camera None
  | None => ret tt
  end ;;
  set_self_closed.

(** The keyword arguments of [start_preview]. *)
Record PreviewArgs : Type := mkPreviewArgs {
  warmup_time : Q;
  awb_gains : option (list pyfloat);
  fix_awb_gains : bool;
  fix_exposure_speed : bool
}.

(** The defaults of the signature. *)
Definition default_preview_args : PreviewArgs :=
  mkPreviewArgs 2 None true true.

(** The local names of [start_preview]. *)
Definition start_preview_locals : list string :=
  ["self"; "warmup_time"; "awb_gains"; "fix_awb_gains"; "fix_exposure_speed"].

Definition start_preview (args : PreviewArgs) : M unit :=
  cam <- self_camera ;;
  match cam with
  | Some _ =>
      match awb_gains args with
      | Some g =>
          cam_set (Camera.set_awb_mode "off") ;;
          cam_set (Camera.set_awb_gains g)
      | None => cam_set (Camera.set_awb_mode "auto")
      end ;;
      cam_set (Camera.set_exposure_mode "auto") ;;
      (* self.camera.start_preview( **kwargs ) *)
      lookup_name (start_preview_locals ++ module_globals) "kwargs" ;;
      cam_start_preview ;;
      sleep (warmup_time args) ;;
      when (match awb_gains args with None => fix_awb_gains args | Some _ => false end)
           (gains <- cam_get Camera.awb_gains ;;
            cam_set (Camera.set_awb_mode "off") ;;
            cam_set (Camera.set_awb_gains gains)) ;;
      when (fix_exposure_speed args)
           (speed <- cam_get Camera.exposure_speed ;;
            cam_set (Camera.set_shutter_speed speed) ;;
            cam_set (Camera.set_exposure_mode "off"))
  | None => ret tt
  end.

(** [reset_gains( **kwargs )]; the keywords are handed on to
    [start_preview], filled in with its defaults. *)
Definition reset_gains (kwargs : PreviewArgs) : M unit :=
  cam <- self_camera ;;
  match cam with
  | Some _ =>
      r <- cam_get Camera.recording ;;
      when r cam_stop_recording ;;
      was_previewing <- cam_get Camera.previewing ;;
      p <- cam_get Camera.previewing ;;
      when p (cam_stop_preview ;; sleep (1 # 10)) ;;
      when was_previewing (start_preview kwargs)
  | None => ret tt
  end.

Definition get_gains : M (option (list pyfloat)) :=
  cam <- self_camera ;;
  match cam with
  | Some c => ret (Some (Camera.awb_gains c))
  | None => ret None
  end.

Definition set_gains (gains : list pyfloat) : M unit :=
  cam <- self_camera ;;
  match cam with
  | Some _ =>
      cam_set (Camera.set_awb_mode "off") ;;
      cam_set (Camera.set_awb_gains gains)
  | None => ret tt
  end.

(** [self.data_path]. *)
Definition self_data_path : M string :=
  fun w => (Ok (data_path (controller w)), w).

(** [path.split(op.sep)]; [None] has no [split]. *)
Definition split_path (path : option string) : M (list string) :=
  match path with
  | Some p => ret (split_char "/" p)
  | None => raise AttributeError
  end.

(** The name of the recording directory:
    ['{}_experiment_{}_recording_{}'.format(rec_datetime, experiment, recording)]. *)
Definition recording_name (rec_datetime : string) (experiment recording : Z)
  : string :=
  rec_datetime ++ "_experiment_" ++ str_of_int experiment
               ++ "_recording_" ++ str_of_int recording.

Definition start_recording (filename : string) (experiment recording : Z)
           (path : option string) (quality : Z) : M (option string) :=
  idle <- camera_idle ;;
  if idle then
    parts <- split_path path ;;
    rec_datetime <- lift (index_last parts) ;;
    let name := recording_name rec_datetime experiment recording in
    base <- self_data_path ;;
    let rec_path := path_join base name in
    there <- path_exists rec_path ;;
    when (negb there) (makedirs rec_path) ;;
    let file_base := path_join rec_path filename in
    let video_path := file_base ++ ".h264" in
    let param_file := file_base ++ "_params.json" in
    res <- cam_get Camera.resolution ;;
    fr <- cam_get Camera.framerate ;;
    sm <- cam_get Camera.sync_mode ;;
    wt <- cam_get Camera.wait_for_trigger ;;
    tt_ <- cam_get Camera.trigger_timeout ;;
    am <- cam_get Camera.awb_mode ;;
    ag <- cam_get Camera.awb_gains ;;
    br <- cam_get Camera.brightness ;;
    zm <- cam_get Camera.zoom ;;
    vf <- cam_get Camera.vflip ;;
    hf <- cam_get Camera.hflip ;;
    let params :=
      mkParams rec_path experiment recording video_path (fst res) (snd res)
               fr sm wt tt_ am ag br zm vf hf in
    write_json param_file params ;;
    cam_start_recording video_path quality ;;
    ret (Some rec_path)
  else ret None.

Definition stop_recording : M unit :=
  r <- is_recording ;;
  when r cam_stop_recording.

Definition close : M unit := cleanup.

(* ================================================================= *)
(** ** class ZmqThread *)

(** Modelled from the spec: the callbacks handed to [ZmqThread.__init__] by
    the start-up script, which is not part of [controller.py].  The server
    translates each wire command into the Controller operation of the same
    name: [start_callback] is [start_recording] with the default file name
    and quality, and [parameter_callback] dispatches on the parameter. *)
Definition start_callback (experiment recording : Z) (path : option string)
  : M (option string) :=
  start_recording "rpicamera_video" experiment recording path 25.

(** The [(name, value)] pairs that [run] passes to [parameter_callback]. *)
Inductive ParameterCall : Type :=
| PStop
| PClose
| PResolution (xy : Z * Z)
| PFramerate (fps : pyfloat)
| PResetGains
| PGetGains
| PSetGains (gains : list pyfloat)
| PVFlip (status : bool)
| PHFlip (status : bool)
| PZoom (coords : list pyfloat).

(** Modelled from the spec: see [start_callback].  Only [GetGains] has a
    result the loop uses. *)
Definition parameter_callback (p : ParameterCall) : M (option (list pyfloat)) :=
  match p with
  | PStop => stop_recording ;; ret None
  | PClose => close ;; ret None
  | PResolution xy => resolution_setter xy ;; ret None
  | PFramerate fps => framerate_setter fps ;; ret None
  | PResetGains => reset_gains default_preview_args ;; ret None
  | PGetGains => get_gains
  | PSetGains gains => set_gains gains ;; ret None
  | PVFlip status => vflip_setter status ;; ret None
  | PHFlip status => hflip_setter status ;; ret None
  | PZoom coords => zoom_setter coords ;; ret None
  end.

(** [socket.send(reply)]. *)
Definition socket_send (reply : string) : M unit := emit (Send reply).

(** [stop_running], called from another thread. *)
Definition stop_running : M unit :=
  fun w => (Ok tt, set_is_running false w).

(** The [for p in parts[1:]] loop of the [Start] branch; [args] are the
    values of [experiment], [recording] and [path] so far. *)
Fixpoint start_arguments (tokens : list string) (args : Z * Z * option string)
  : Result (Z * Z * option string) :=
  match tokens with
  | [] => Ok args
  | p :: rest =>
      let '(experiment, recording, path) := args in
      match split_char "=" p with
      | [name; value] =>
          if String.eqb name "Experiment" then
            match py_int value with
            | Ok n => start_arguments rest (n, recording, path)
            | Raise e => Raise e
            end
          else if String.eqb name "Recording" then
            match py_int value with
            | Ok n => start_arguments rest (experiment, n, path)
            | Raise e => Raise e
            end
          else if String.eqb name "Path" then
            start_arguments rest (experiment, recording, Some value)
          else start_arguments rest args
      | _ => Raise ValueError
      end
  end.

(** [[float(p) for p in tokens]]. *)
Fixpoint floats (tokens : list string) : Result (list pyfloat) :=
  match tokens with
  | [] => Ok []
  | p :: rest =>
      match py_float p with
      | Ok x =>
          match floats rest with
          | Ok xs => Ok (x :: xs)
          | Raise e => Raise e
          end
      | Raise e => Raise e
      end
  end.

(** How one pass through the loop body ends. *)
Inductive Control : Type := Continue | Break.

(** The body of the [while True] loop from [msg.split()] on. *)
Definition serve (msg : string) : M Control :=
  let parts := split_ws msg in
  cmd <- lift (index parts 0) ;;
  if String.eqb cmd "Start" then
    args <- lift (start_arguments (tl parts) (0, 1, None)) ;;
    let '(experiment, recording, path) := args in
    rec_path <- start_callback experiment recording path ;;
    socket_send (match rec_path with Some p => p | None => "" end) ;;
    ret Continue
  else if String.eqb cmd "Stop" then
    parameter_callback PStop ;;
    socket_send "Stopped" ;;
    ret Continue
  else if String.eqb cmd "Close" then
    parameter_callback PClose ;;
    socket_send "Closing" ;;
    ret Break
  else if String.eqb cmd "Resolution" then
    p1 <- lift (index parts 1) ;;
    width <- lift (py_int p1) ;;
    p2 <- lift (index parts 2) ;;
    height <- lift (py_int p2) ;;
    parameter_callback (PResolution (width, height)) ;;
    socket_send "Done" ;;
    ret Continue
  else if String.eqb cmd "Framerate" then
    p1 <- lift (index parts 1) ;;
    fps <- lift (py_float p1) ;;
    parameter_callback (PFramerate fps) ;;
    socket_send "Done" ;;
    ret Continue
  else if String.eqb cmd "ResetGains" then
    socket_send "Done (but wait at least 2 seconds)" ;;
    parameter_callback PResetGains ;;
    ret Continue
  else if String.eqb cmd "GetGains" then
    gains <- parameter_callback PGetGains ;;
    match gains with
    | Some g =>
        g0 <- lift (index g 0) ;;
        g1 <- lift (index g 1) ;;
        socket_send (format_6f g0 ++ " " ++ format_6f g1)
    | None => raise TypeError
    end ;;
    ret Continue
  else if String.eqb cmd "SetGains" then
    p1 <- lift (index parts 1) ;;
    red <- lift (py_float p1) ;;
    p2 <- lift (index parts 2) ;;
    blue <- lift (py_float p2) ;;
    parameter_callback (PSetGains [red; blue]) ;;
    socket_send "Done" ;;
    ret Continue
  else if String.eqb cmd "VFlip" then
    p1 <- lift (index parts 1) ;;
    n <- lift (py_int p1) ;;
    parameter_callback (PVFlip (0 <? n)) ;;
    socket_send "Done" ;;
    ret Continue
  else if String.eqb cmd "HFlip" then
    p1 <- lift (index parts 1) ;;
    n <- lift (py_int p1) ;;
    parameter_callback (PHFlip (0 <? n)) ;;
    socket_send "Done" ;;
    ret Continue
  else if String.eqb cmd "Zoom" then
    coords <- lift (floats (tl parts)) ;;
    parameter_callback (PZoom coords) ;;
    socket_send "Done" ;;
    ret Continue
  else
    socket_send "Not handled" ;;
    ret Continue.

(** How [run] ends: it returns (the flag was cleared, or [Close] was
    served), it is left blocked in [socket.recv()] with nothing to
    receive, or an exception leaves it and the thread is gone. *)
Inductive Outcome : Type :=
| Returned
| Blocked
| Died (e : exn).

(** The [while True] loop; [inbox] is what [socket.recv()] delivers, one
    message per call. *)
Fixpoint serve_loop (inbox : list string) (w : World) : Outcome * World :=
  if negb (is_running w) then (Returned, w)
  else
    match inbox with
    | [] => (Blocked, w)
    | msg :: rest =>
        match serve msg w with
        | (Ok Continue, w') => serve_loop rest w'
        | (Ok Break, w') => (Returned, w')
        | (Raise e, w') => (Died e, w')
        end
    end.

(** [ZmqThread.run]. *)
Definition run (inbox : list string) (w : World) : Outcome * World :=
  serve_loop inbox (set_is_running true w).

(** The replies sent so far. *)
Definition replies (w : World) : list string :=
  flat_map (fun e => match e with Send r => [r] | _ => [] end) (log w).

(* ================================================================= *)
(** ** Concrete worlds *)

(** A camera as it is after construction: idle, no preview. *)
Definition idle_camera : Camera.t :=
  Camera.mk (Fin 30) (640, 480) false false [Fin 0; Fin 0; Fin 1; Fin 1]
            "auto" [Fin (3 # 2); Fin (5 # 4)] "auto" 0 10000 50
            false false (Fin 0) false false false.

Definition world_with (base : string) (cam : option Camera.t)
           (denied : list string) : World :=
  mkWorld (mkController base false cam) (mkFS [] [] denied) true [].

Definition idle_world : World := world_with "/rec" (Some idle_camera) [].

Definition recording_world : World :=
  world_with "/rec" (Some (Camera.set_recording true idle_camera)) [].

Definition previewing_world : World :=
  world_with "/rec" (Some (Camera.set_previewing true idle_camera)) [].

Definition bare_world : World := world_with "/rec" None [].

(** The world with one more event on its log. *)
Definition logged (e : Event) (w : World) : World :=
  mkWorld (controller w) (fs w) (is_running w) (log w ++ [e]).

(** The world after [cleanup] when there was no camera: only
    [self.closed] has changed. *)
Definition closed_world (w : World) : World :=
  set_controller
    (mkController (data_path (controller w)) true (camera (controller w))) w.

(** The world after the scenario
    [Start Experiment=2 Recording=3 Path=/data/20240101_1200] is served
    from [idle_world]. *)
Definition scenario_world : World :=
  snd (start_callback 2 3 (Some "/data/20240101_1200") idle_world).

(** A world where the recording directory of the scenario cannot be
    created. *)
Definition readonly_world : World :=
  world_with "/rec" (Some idle_camera)
             ["/rec/20240101_1200_experiment_2_recording_3"].

(** A world where that directory can be created but its parameter file
    cannot be written. *)
Definition unwritable_world : World :=
  world_with
    "/rec" (Some idle_camera)
    ["/rec/20240101_1200_experiment_2_recording_3/rpicamera_video_params.json"].

(** The steps of the gain reset that the outside can see: stopping the
    recording and the preview, the delays, restarting the preview. *)
Definition is_reset_work (e : Event) : bool :=
  match e with
  | CamStopRecording | CamStopPreview | CamStartPreview | Sleep _ => true
  | _ => false
  end.

(** [0 <= x <= 1]: the coordinate lies in the unit interval. *)
Definition in_unit (x : pyfloat) : bool :=
  (fle (of_Z 0) x && fle x (of_Z 1))%bool.

Definition is_number (x : pyfloat) : bool :=
  match x with
  | NaN => false
  | _ => true
  end.

(** The zoom rectangle of the camera in a world, if there is a camera. *)
Definition zoom_of (w : World) : option (list pyfloat) :=
  option_map Camera.zoom (camera (controller w)).

(** The world in which the camera's zoom is [coords]. *)
Definition zoomed (coords : list pyfloat) (w : World) : World :=
  set_controller
    (mkController (data_path (controller w)) (closed (controller w))
                  (option_map (Camera.set_zoom coords) (camera (controller w))))
    w.

(** Only whether a conversion raised. *)
Definition ignore {A : Type} (r : Result A) : Result unit :=
  match r with
  | Ok _ => Ok tt
  | Raise e => Raise e
  end.

(** Two conversions, the second evaluated only after the first. *)
Definition both {A B : Type} (r1 : Result A) (r2 : Result B) : Result unit :=
  match r1 with
  | Ok _ => ignore r2
  | Raise e => Raise e
  end.

(** [int(parts[i])] and [float(parts[i])]. *)
Definition int_at (parts : list string) (i : nat) : Result Z :=
  match index parts i with
  | Ok p => py_int p
  | Raise e => Raise e
  end.

Definition float_at (parts : list string) (i : nat) : Result pyfloat :=
  match index parts i with
  | Ok p => py_float p
  | Raise e => Raise e
  end.

(** The conversions that each branch of the loop body applies to the
    tokens before it calls back, in the order of the source: what is read
    from the request, without what is done with it. *)
Definition read_arguments (parts : list string) : Result unit :=
  match index parts 0 with
  | Raise e => Raise e
  | Ok cmd =>
      if String.eqb cmd "Start" then
        ignore (start_arguments (tl parts) (0, 1, None))
      else if String.eqb cmd "Stop" then Ok tt
      else if String.eqb cmd "Close" then Ok tt
      else if String.eqb cmd "Resolution" then
        both (int_at parts 1) (int_at parts 2)
      else if String.eqb cmd "Framerate" then ignore (float_at parts 1)
      else if String.eqb cmd "ResetGains" then Ok tt
      else if String.eqb cmd "GetGains" then Ok tt
      else if String.eqb cmd "SetGains" then
        both (float_at parts 1) (float_at parts 2)
      else if String.eqb cmd "VFlip" then ignore (int_at parts 1)
      else if String.eqb cmd "HFlip" then ignore (int_at parts 1)
      else if String.eqb cmd "Zoom" then ignore (floats (tl parts))
      else Ok tt
  end.

(** A computation that sends nothing. *)
Definition silent {A : Type} (m : M A) : Prop :=
  forall w, replies (snd (m w)) = replies w.

(** A computation that sends exactly one reply when it returns and none
    when it raises. *)
Definition answers_once {A : Type} (m : M A) : Prop :=
  forall w,
    match m w with
    | (Ok _, w') => exists reply, replies w' = (replies w ++ [reply])%list
    | (Raise _, w') => replies w' = replies w
    end.

(** The world in which the controller's camera is [c]. *)
Definition with_camera (c : Camera.t) (w : World) : World :=
  set_controller
    (mkController (data_path (controller w)) (closed (controller w)) (Some c)) w.

(** What stopping logs for a camera: the recording, if one is running. *)
Definition stop_events (cam : option Camera.t) : list Event :=
  match cam with
  | Some c => if Camera.recording c then [CamStopRecording] else []
  | None => []
  end.

(** What tearing a camera down logs: the recording and the preview
    stopped if they run, the camera closed if it is open. *)
Definition teardown_events (cam : option Camera.t) : list Event :=
  match cam with
  | Some c =>
      (if Camera.recording c then [CamStopRecording] else [])
        ++ (if Camera.previewing c then [CamStopPreview] else [])
        ++ (if Camera.closed c then [] else [CamClose])
  | None => []
  end.

(** The verbs that [run] knows. *)
Definition verbs : list string :=
  ["Start"; "Stop"; "Close"; "Resolution"; "Framerate"; "ResetGains";
   "GetGains"; "SetGains"; "VFlip"; "HFlip"; "Zoom"].

(** No character of [s] is the separator. *)
Definition free_of (sep : ascii) (s : string) : bool :=
  forallb (fun c => negb (Ascii.eqb c sep)) (list_ascii_of_string s).



(* ================================================================= *)
(** ** The builtins on examples *)

Example split_ws_ex :
  split_ws "  Start  Experiment=2 Path=/a/b "
  = ["Start"; "Experiment=2"; "Path=/a/b"].
Proof. reflexivity. Qed.

Example split_char_ex : split_char "/" "/data/2024" = [""; "data"; "2024"].
Proof. reflexivity. Qed.

Example py_int_ex :
  py_int "-007" = Ok (-7)
  /\ py_int "abc" = Raise ValueError
  /\ py_int "" = Raise ValueError
  /\ py_int "4x" = Raise ValueError.
Proof. repeat split. Qed.

Example py_float_ex :
  py_float "2.50e1" = Ok (Fin (25 # 1))
  /\ py_float ".5" = Ok (Fin (1 # 2))
  /\ py_float "5." = Ok (Fin (5 # 1))
  /\ py_float "NaN" = Ok NaN
  /\ py_float "-inf" = Ok NegInf
  /\ py_float "." = Raise ValueError
  /\ py_float "1e" = Raise ValueError.
Proof. repeat split. Qed.

Example format_ex :
  format_6f (Fin (3 # 2)) = "1.500000"
  /\ format_6f (Fin (-1 # 3)) = "-0.333333"
  /\ format_6f (Fin (5 # 10000000)) = "0.000000"
  /\ format_6f (Fin (15 # 10000000)) = "0.000002".
Proof. repeat split. Qed.

Example join_ex :
  path_join "/rec" "x" = "/rec/x"
  /\ path_join "/rec/" "x" = "/rec/x"
  /\ path_join "" "x" = "x"
  /\ path_join "/rec" "/x" = "/x".
Proof. repeat split. Qed.

(** A session on the wire: a recording is started and stopped, the gains
    are read, an unknown verb is answered, and [Close] ends the loop
    before the last request. *)
Example session :
  let end_ := run ["Start Experiment=2 Recording=3 Path=/data/20240101_1200";
                   "Start"; "Stop"; "GetGains"; "Resolution 320 240"; "Foo";
                   "Close"; "Stop"] idle_world in
  fst end_ = Returned
  /\ replies (snd end_)
     = ["/rec/20240101_1200_experiment_2_recording_3"; ""; "Stopped";
        "1.500000 1.250000"; "Done"; "Not handled"; "Closing"].
Proof. split; reflexivity. Qed.

(* ================================================================= *)
(** ** Setters and Start while recording *)

Lemma camera_idle_recording (w : World) (c : Camera.t) :
  camera (controller w) = Some c -> Camera.recording c = true ->
  camera_idle w = (Ok false, w).
Proof.
  intros Hc Hr. unfold camera_idle, bind, self_camera.
  rewrite Hc. unfold ret. now rewrite Hr.
Qed.

Lemma camera_idle_absent (w : World) :
  camera (controller w) = None -> camera_idle w = (Ok false, w).
Proof.
  intros Hc. unfold camera_idle, bind, self_camera. now rewrite Hc.
Qed.

Lemma camera_idle_ready (w : World) (c : Camera.t) :
  camera (controller w) = Some c -> Camera.recording c = false ->
  camera_idle w = (Ok true, w).
Proof.
  intros Hc Hr. unfold camera_idle, bind, self_camera.
  rewrite Hc. unfold ret. now rewrite Hr.
Qed.

(** C3: while the camera is recording, the framerate, resolution, vflip and
    hflip setters return without touching anything: the whole world, and so
    every camera attribute, is the same before and after. *)
Theorem setters_ignored_while_recording
        (w : World) (c : Camera.t)
        (fps : pyfloat) (xy : Z * Z) (v h : bool) :
  camera (controller w) = Some c ->
  Camera.recording c = true ->
  framerate_setter fps w = (Ok tt, w)
  /\ resolution_setter xy w = (Ok tt, w)
  /\ vflip_setter v w = (Ok tt, w)
  /\ hflip_setter h w = (Ok tt, w).
Proof.
  intros Hc Hr.
  unfold framerate_setter, resolution_setter, vflip_setter, hflip_setter, bind.
  rewrite (camera_idle_recording w c Hc Hr). cbn. auto.
Qed.

Lemma setters_ignored_while_recording_witness :
  framerate_setter (Fin 60) recording_world = (Ok tt, recording_world)
  /\ resolution_setter (1280, 720) recording_world = (Ok tt, recording_world)
  /\ vflip_setter true recording_world = (Ok tt, recording_world)
  /\ hflip_setter true recording_world = (Ok tt, recording_world).
Proof.
  apply (setters_ignored_while_recording
           recording_world (Camera.set_recording true idle_camera));
    reflexivity.
Defined.

(** C2: while the camera is recording, [start_recording] returns [None] and
    leaves the world as it was (no directory, no parameter file, the camera
    untouched), and the loop answers a [Start] command with the empty
    string and goes on serving. *)
Theorem start_while_recording_is_ignored
        (w : World) (c : Camera.t) :
  camera (controller w) = Some c ->
  Camera.recording c = true ->
  (forall filename experiment recording path quality,
      start_recording filename experiment recording path quality w = (Ok None, w))
  /\ (forall msg tokens args,
         split_ws msg = "Start" :: tokens ->
         start_arguments tokens (0, 1, None) = Ok args ->
         serve msg w = (Ok Continue, logged (Send "") w)).
Proof.
  intros Hc Hr.
  assert (Hstart : forall filename experiment recording path quality,
             start_recording filename experiment recording path quality w
             = (Ok None, w)).
  { intros. unfold start_recording, bind.
    now rewrite (camera_idle_recording w c Hc Hr). }
  split; [exact Hstart|].
  intros msg tokens [[e r] p] Hsplit Hargs.
  unfold serve. rewrite Hsplit. cbn [index nth_error tl].
  unfold bind at 1. unfold lift at 1. cbn [String.eqb Ascii.eqb Bool.eqb].
  unfold bind at 1. unfold lift at 1. rewrite Hargs.
  unfold bind at 1. unfold start_callback. rewrite Hstart.
  reflexivity.
Qed.

Lemma start_while_recording_is_ignored_witness :
  start_recording "rpicamera_video" 2 3 (Some "/data/20240101_1200") 25
                  recording_world = (Ok None, recording_world)
  /\ serve "Start Experiment=2 Recording=3 Path=/data/20240101_1200"
           recording_world
     = (Ok Continue, logged (Send "") recording_world).
Proof.
  destruct (start_while_recording_is_ignored
              recording_world (Camera.set_recording true idle_camera)
              eq_refl eq_refl) as [H1 H2].
  split.
  - apply H1.
  - apply (H2 _ ["Experiment=2"; "Recording=3"; "Path=/data/20240101_1200"]
              (2, 3, Some "/data/20240101_1200")); reflexivity.
Defined.

(* ================================================================= *)
(** ** A controller without a camera *)

(** C5: a failing camera constructor does not make [Controller.__init__]
    raise, it leaves [self.camera = None]; and on a controller without a
    camera no operation raises: the getters, [get_gains] and
    [start_recording] return [None], the setters, [start_preview],
    [reset_gains], [set_gains] and [stop_recording] do nothing, and
    [cleanup] does nothing but set [self.closed]. *)
Theorem no_camera_no_raise (w : World) :
  camera (controller w) = None ->
  (forall base e,
      Controller_init base (Raise e) = Ok (mkController base false None))
  /\ framerate w = (Ok None, w)
  /\ resolution w = (Ok None, w)
  /\ vflip w = (Ok None, w)
  /\ hflip w = (Ok None, w)
  /\ zoom w = (Ok None, w)
  /\ (forall fps, framerate_setter fps w = (Ok tt, w))
  /\ (forall xy, resolution_setter xy w = (Ok tt, w))
  /\ (forall b, vflip_setter b w = (Ok tt, w))
  /\ (forall b, hflip_setter b w = (Ok tt, w))
  /\ (forall coords, zoom_setter coords w = (Ok tt, w))
  /\ (forall args, start_preview args w = (Ok tt, w))
  /\ (forall kwargs, reset_gains kwargs w = (Ok tt, w))
  /\ get_gains w = (Ok None, w)
  /\ (forall gains, set_gains gains w = (Ok tt, w))
  /\ (forall filename experiment recording path quality,
         start_recording filename experiment recording path quality w
         = (Ok None, w))
  /\ is_recording w = (Ok false, w)
  /\ stop_recording w = (Ok tt, w)
  /\ cleanup w = (Ok tt, closed_world w)
  /\ close w = (Ok tt, closed_world w).
Proof.
  intros Hc.
  assert (Hidle := camera_idle_absent w Hc).
  repeat match goal with |- _ /\ _ => split end; intros;
    unfold framerate, resolution, vflip, hflip, zoom, property,
      framerate_setter, resolution_setter, vflip_setter, hflip_setter,
      zoom_setter, start_preview, reset_gains, get_gains, set_gains,
      start_recording, stop_recording, is_recording, close, cleanup, bind;
    try rewrite Hidle;
    try (unfold self_camera; rewrite Hc);
    reflexivity.
Qed.

Lemma no_camera_no_raise_witness :
  get_gains bare_world = (Ok None, bare_world)
  /\ start_recording "rpicamera_video" 0 1 (Some "/data/x") 25 bare_world
     = (Ok None, bare_world)
  /\ cleanup bare_world = (Ok tt, closed_world bare_world).
Proof.
  pose proof (no_camera_no_raise bare_world eq_refl) as H.
  repeat split; apply H.
Defined.

(* ================================================================= *)
(** ** The undefined name in start_preview *)

Lemma kwargs_unbound :
  mem "kwargs" (start_preview_locals ++ module_globals) = false.
Proof. reflexivity. Qed.

(** C9: with a camera present, [start_preview] always raises [NameError]:
    after the white-balance and exposure modes are written, the name
    [kwargs] is looked up and is not bound, so the camera's preview is
    never started (nothing is logged, the preview flag is as before).
    Hence [reset_gains] raises too whenever a preview was active: it
    stops the recording (if any) and the preview, sleeps, and fails in
    [start_preview]. *)
Theorem start_preview_raises_NameError (w : World) (c : Camera.t) :
  camera (controller w) = Some c ->
  (forall args,
      exists w',
        start_preview args w = (Raise NameError, w')
        /\ log w' = log w
        /\ exists c', camera (controller w') = Some c'
                      /\ Camera.previewing c' = Camera.previewing c)
  /\ (Camera.previewing c = true ->
      forall kwargs,
      exists w',
        reset_gains kwargs w = (Raise NameError, w')
        /\ log w' = (log w
                      ++ (if Camera.recording c then [CamStopRecording] else [])
                      ++ [CamStopPreview; Sleep (1 # 10)])%list).
Proof.
  destruct w as [[base cl cam] f running lg]. cbn [controller camera].
  intros ->. split.
  - intros [wt [g|] fa fe]; eexists; (split; [reflexivity|]);
      cbn; split; try reflexivity; eexists; split; reflexivity.
  - intros Hp [wt g fa fe].
    destruct c as [fr res vf hf zm am ag em ss es br sm wft tto rec prev clo].
    cbn in Hp. subst prev.
    destruct rec, g; eexists; (split; [reflexivity|]); cbn;
      rewrite <- ?app_assoc; reflexivity.
Qed.

Lemma start_preview_raises_NameError_witness :
  (exists w', start_preview default_preview_args idle_world = (Raise NameError, w')
              /\ log w' = log idle_world)
  /\ (exists w', reset_gains default_preview_args previewing_world
                 = (Raise NameError, w')
                 /\ log w' = [CamStopPreview; Sleep (1 # 10)]).
Proof.
  destruct (start_preview_raises_NameError idle_world idle_camera eq_refl)
    as [H1 _].
  destruct (start_preview_raises_NameError
              previewing_world (Camera.set_previewing true idle_camera) eq_refl)
    as [_ H2].
  split.
  - destruct (H1 default_preview_args) as (w' & E & L & _).
    exists w'. split; assumption.
  - destruct (H2 eq_refl default_preview_args) as (w' & E & L).
    exists w'. split; assumption.
Defined.

(* ================================================================= *)
(** ** Starting a recording *)

Lemma split_char_aux_last (sep : ascii) (cs cur : list ascii) :
  exists x, index_last (split_char_aux sep cs cur) = Ok x.
Proof.
  revert cur. induction cs as [|c cs IH]; intros cur; cbn [split_char_aux].
  - eexists. reflexivity.
  - destruct (Ascii.eqb c sep).
    + destruct (IH []) as [x Hx]. unfold index_last in *. cbn [rev].
      destruct (rev (split_char_aux sep cs [])) as [|y ys]; [discriminate|].
      exists y. reflexivity.
    + apply IH.
Qed.

(** A split path always has a last component. *)
Lemma split_char_last (sep : ascii) (s : string) :
  exists x, index_last (split_char sep s) = Ok x.
Proof. apply split_char_aux_last. Qed.

Lemma append_assoc (a b c : string) : ((a ++ b) ++ c = a ++ (b ++ c))%string.
Proof. induction a as [|x a IH]; cbn; [reflexivity | now rewrite IH]. Qed.

Lemma prefix_append (a b : string) : prefix a (a ++ b) = true.
Proof.
  induction a as [|x a IH]; cbn.
  - now destruct b.
  - destruct (ascii_dec x x) as [_|N]; [exact IH | now destruct N].
Qed.

(** A relative file name joined to a directory lies under it. *)
Lemma path_join_prefix (dir name suffix : string) :
  starts_with_sep name = false ->
  prefix dir (path_join dir name ++ suffix) = true.
Proof.
  intros H. unfold path_join. rewrite H.
  destruct (String.eqb dir "" || ends_with_sep dir)%bool;
    rewrite !append_assoc; apply prefix_append.
Qed.

Section StartRecording.

Local Arguments path_join : simpl never.
Local Arguments recording_name : simpl never.
Local Arguments mem : simpl never.
Local Arguments String.append : simpl never.
Local Arguments index_last : simpl never.
Local Arguments split_char : simpl never.

Variables (filename path : string) (experiment recording quality : Z).
Variables (w : World) (c : Camera.t) (last : string).

Hypothesis camera_present : camera (controller w) = Some c.
Hypothesis not_recording : Camera.recording c = false.
Hypothesis last_component : index_last (split_char "/" path) = Ok last.

(** The call succeeds when the directory is there or can be made and
    the parameter file can be written. *)
Lemma start_recording_succeeds :
  let rec_path :=
    path_join (data_path (controller w))
              (recording_name last experiment recording) in
  let param_file := (path_join rec_path filename ++ "_params.json")%string in
  let there :=
    (mem rec_path (fs_dirs (fs w))
     || mem rec_path (map fst (fs_files (fs w))))%bool in
  (there || negb (mem rec_path (fs_denied (fs w))))%bool = true ->
  mem param_file (fs_denied (fs w)) = false ->
  exists w' c' params,
    start_recording filename experiment recording (Some path) quality w
    = (Ok (Some rec_path), w')
    /\ read_json param_file (fs w') = Some params
    /\ p_rec_path params = rec_path
    /\ p_experiment params = experiment
    /\ p_recording params = recording
    /\ camera (controller w') = Some c'
    /\ Camera.recording c' = true
    /\ replies w' = replies w.
Proof.
  cbv zeta.
  destruct w as [[base cl cam] f running lg]. cbn [controller camera] in *.
  subst cam.
  destruct c as [fr res vf hf zm am ag em ss es br sm wft tto rec prev clo].
  cbn in not_recording. subst rec.
  cbn [fs data_path]. intros Hdir Hfile.
  unfold start_recording. cbn. rewrite last_component. cbn.
  destruct (mem _ (fs_dirs f) || mem _ (map fst (fs_files f)))%bool; cbn in *.
  - unfold write_json at 1; unfold bind at 1. cbn. rewrite Hfile. cbn.
    do 3 eexists. split; [reflexivity|].
    unfold read_json. cbn. rewrite String.eqb_refl. cbn.
    repeat split; try reflexivity.
    unfold replies. cbn. rewrite !flat_map_app. cbn. now rewrite !app_nil_r.
  - apply negb_true_iff in Hdir.
    unfold makedirs at 1; unfold bind at 1. cbn. rewrite Hdir. cbn.
    unfold write_json at 1; unfold bind at 1. cbn. rewrite Hfile. cbn.
    do 3 eexists. split; [reflexivity|].
    unfold read_json. cbn. rewrite String.eqb_refl. cbn.
    repeat split; try reflexivity.
    unfold replies. cbn. rewrite !flat_map_app. cbn. now rewrite !app_nil_r.
Qed.

(** The call raises when the directory is missing and cannot be made, or
    when the parameter file cannot be written; nothing is sent and the
    camera does not start recording. *)
Lemma start_recording_io_error :
  let rec_path :=
    path_join (data_path (controller w))
              (recording_name last experiment recording) in
  let param_file := (path_join rec_path filename ++ "_params.json")%string in
  let there :=
    (mem rec_path (fs_dirs (fs w))
     || mem rec_path (map fst (fs_files (fs w))))%bool in
  (negb there && mem rec_path (fs_denied (fs w))
   || mem param_file (fs_denied (fs w)))%bool = true ->
  exists e w',
    start_recording filename experiment recording (Some path) quality w
    = (Raise e, w')
    /\ (e = OSError \/ e = IOError)
    /\ replies w' = replies w
    /\ camera (controller w') = Some c.
Proof.
  cbv zeta.
  destruct w as [[base cl cam] f running lg]. cbn [controller camera] in *.
  subst cam.
  destruct c as [fr res vf hf zm am ag em ss es br sm wft tto rec prev clo].
  cbn in not_recording. subst rec.
  cbn [fs data_path]. intros Hio.
  unfold start_recording. cbn. rewrite last_component. cbn.
  destruct (mem _ (fs_dirs f) || mem _ (map fst (fs_files f)))%bool; cbn in *.
  - unfold write_json at 1; unfold bind at 1. cbn. rewrite Hio. cbn.
    do 2 eexists. split; [reflexivity|]. auto.
  - unfold makedirs at 1; unfold bind at 1. cbn.
    destruct (mem _ (fs_denied f)) eqn:Hd; cbn in *.
    + do 2 eexists. split; [reflexivity|]. auto.
    + unfold write_json at 1; unfold bind at 1. cbn. rewrite Hio. cbn.
      do 2 eexists. split; [reflexivity|].
      split; [auto|]. split; [|reflexivity].
      unfold replies. cbn. rewrite !flat_map_app. cbn. now rewrite !app_nil_r.
Qed.

End StartRecording.

(** The [Start] branch of the loop body, once the tokens are read. *)
Lemma serve_start (msg : string) (tokens : list string) (w : World)
      (experiment recording : Z) (path : option string) :
  split_ws msg = "Start" :: tokens ->
  start_arguments tokens (0, 1, None) = Ok (experiment, recording, path) ->
  serve msg w
  = (rec_path <- start_callback experiment recording path ;;
     socket_send (match rec_path with Some p => p | None => "" end) ;;
     ret Continue) w.
Proof.
  intros Hsplit Hargs.
  unfold serve. rewrite Hsplit. cbn [index nth_error tl].
  unfold bind at 1. unfold lift at 1. cbn [String.eqb Ascii.eqb Bool.eqb].
  unfold bind at 1. unfold lift at 1. rewrite Hargs. reflexivity.
Qed.

(** An exception in the loop body ends the loop: what is still in the
    inbox is never served. *)
Lemma serve_loop_dies (msg : string) (rest : list string) (w w' : World)
      (e : exn) :
  is_running w = true ->
  serve msg w = (Raise e, w') ->
  serve_loop (msg :: rest) w = (Died e, w').
Proof.
  intros Hrun Hserve. cbn [serve_loop]. rewrite Hrun. cbn [negb].
  now rewrite Hserve.
Qed.

(** C6: when [start_recording] succeeds, the directory it returns is the
    controller's data path joined with
    [<last component of path>_experiment_<experiment>_recording_<recording>],
    and the parameter file, [<filename>_params.json] joined under that
    directory, holds the same directory and the same experiment and
    recording numbers. *)
Theorem start_recording_directory
        (w w' : World) (filename path rec_path : string)
        (experiment recording quality : Z) :
  start_recording filename experiment recording (Some path) quality w
  = (Ok (Some rec_path), w') ->
  exists last params,
    index_last (split_char "/" path) = Ok last
    /\ rec_path = path_join (data_path (controller w))
                            (recording_name last experiment recording)
    /\ read_json (path_join rec_path filename ++ "_params.json") (fs w')
       = Some params
    /\ p_rec_path params = rec_path
    /\ p_experiment params = experiment
    /\ p_recording params = recording
    /\ (starts_with_sep filename = false ->
        prefix rec_path (path_join rec_path filename ++ "_params.json") = true).
Proof.
  intros Hcall.
  destruct (camera (controller w)) as [c|] eqn:Hc.
  2:{ unfold start_recording, bind in Hcall.
      rewrite (camera_idle_absent w Hc) in Hcall. discriminate. }
  destruct (Camera.recording c) eqn:Hr.
  { unfold start_recording, bind in Hcall.
    rewrite (camera_idle_recording w c Hc Hr) in Hcall. discriminate. }
  destruct (split_char_last "/" path) as [last Hlast].
  pose proof (start_recording_succeeds filename path experiment recording
                quality w c last Hc Hr Hlast) as Hgood.
  pose proof (start_recording_io_error filename path experiment recording
                quality w c last Hc Hr Hlast) as Hbad.
  cbv zeta in Hgood, Hbad.
  set (dir := path_join (data_path (controller w))
                        (recording_name last experiment recording)) in *.
  destruct (mem dir (fs_dirs (fs w)) || mem dir (map fst (fs_files (fs w))))%bool,
           (mem dir (fs_denied (fs w))),
           (mem (path_join dir filename ++ "_params.json") (fs_denied (fs w)));
    cbn in Hgood, Hbad;
    try (destruct (Hbad eq_refl) as (e & w1 & E & _);
         rewrite E in Hcall; discriminate);
    destruct (Hgood eq_refl eq_refl)
      as (w1 & c1 & params & E & Hread & Hp & He & Hn & _);
    rewrite E in Hcall; injection Hcall as <- <-;
    exists last, params; repeat split; auto;
    intros Hrel; apply path_join_prefix; exact Hrel.
Qed.

Lemma start_recording_directory_witness :
  exists last params,
    index_last (split_char "/" "/data/20240101_1200") = Ok last
    /\ "/rec/20240101_1200_experiment_2_recording_3"
       = path_join (data_path (controller idle_world)) (recording_name last 2 3)
    /\ read_json
         (path_join "/rec/20240101_1200_experiment_2_recording_3"
                    "rpicamera_video" ++ "_params.json")
         (fs scenario_world)
       = Some params
    /\ p_rec_path params = "/rec/20240101_1200_experiment_2_recording_3"
    /\ p_experiment params = 2
    /\ p_recording params = 3
    /\ (starts_with_sep "rpicamera_video" = false ->
        prefix "/rec/20240101_1200_experiment_2_recording_3"
               (path_join "/rec/20240101_1200_experiment_2_recording_3"
                          "rpicamera_video" ++ "_params.json") = true).
Proof.
  apply (start_recording_directory
           idle_world scenario_world "rpicamera_video" "/data/20240101_1200"
           "/rec/20240101_1200_experiment_2_recording_3" 2 3 25).
  reflexivity.
Defined.

(** The scenario on the wire: the reply is the recording directory. *)
Example start_scenario_reply :
  replies (snd (run ["Start Experiment=2 Recording=3 Path=/data/20240101_1200"]
                    idle_world))
  = ["/rec/20240101_1200_experiment_2_recording_3"].
Proof. reflexivity. Qed.

(* ================================================================= *)
(** ** Start requests that end the server *)

(** C8, as the code has it: an I/O error in [os.makedirs] or in opening
    the parameter file is caught neither by [start_recording] nor by the
    loop.  The [Start] request raises [OSError] or [IOError] out of the
    loop body, no reply is sent for it, the camera does not start
    recording, and the loop is dead for whatever follows. *)
Theorem start_io_error_is_fatal
        (w : World) (c : Camera.t) (msg : string) (tokens rest : list string)
        (experiment recording : Z) (path last : string) :
  camera (controller w) = Some c ->
  Camera.recording c = false ->
  split_ws msg = "Start" :: tokens ->
  start_arguments tokens (0, 1, None) = Ok (experiment, recording, Some path) ->
  index_last (split_char "/" path) = Ok last ->
  let rec_path := path_join (data_path (controller w))
                            (recording_name last experiment recording) in
  let param_file := (path_join rec_path "rpicamera_video" ++ "_params.json")%string in
  (negb (mem rec_path (fs_dirs (fs w)) || mem rec_path (map fst (fs_files (fs w))))
   && mem rec_path (fs_denied (fs w))
   || mem param_file (fs_denied (fs w)))%bool = true ->
  exists e w',
    serve msg w = (Raise e, w')
    /\ (e = OSError \/ e = IOError)
    /\ replies w' = replies w
    /\ camera (controller w') = Some c
    /\ (is_running w = true -> serve_loop (msg :: rest) w = (Died e, w')).
Proof.
  intros Hc Hr Hsplit Hargs Hlast rec_path param_file Hio.
  destruct (start_recording_io_error "rpicamera_video" path experiment
              recording 25 w c last Hc Hr Hlast Hio)
    as (e & w' & Hcall & He & Hrep & Hcam).
  assert (Hserve : serve msg w = (Raise e, w')).
  { rewrite (serve_start msg tokens w _ _ _ Hsplit Hargs).
    unfold bind at 1. unfold start_callback. now rewrite Hcall. }
  exists e, w'. repeat split; auto.
  intros Hrun. now apply serve_loop_dies.
Qed.

Lemma start_io_error_is_fatal_witness :
  exists e w',
    serve "Start Experiment=2 Recording=3 Path=/data/20240101_1200"
          unwritable_world = (Raise e, w')
    /\ (e = OSError \/ e = IOError)
    /\ replies w' = replies unwritable_world
    /\ camera (controller w') = Some idle_camera
    /\ (is_running unwritable_world = true ->
        serve_loop ["Start Experiment=2 Recording=3 Path=/data/20240101_1200";
                    "Stop"] unwritable_world = (Died e, w')).
Proof.
  apply (start_io_error_is_fatal
           unwritable_world idle_camera _
           ["Experiment=2"; "Recording=3"; "Path=/data/20240101_1200"]
           ["Stop"] 2 3 "/data/20240101_1200" "20240101_1200");
    reflexivity.
Defined.

(** C8 fails on the code: where the recording directory cannot be
    created, the [Start] request gets no reply at all, not even an empty
    one, and the loop dies with [OSError] before the next request. *)
Lemma start_io_error_unanswered :
  fst (run ["Start Experiment=2 Recording=3 Path=/data/20240101_1200"; "Stop"]
           readonly_world)
  = Died OSError
  /\ replies
       (snd (run ["Start Experiment=2 Recording=3 Path=/data/20240101_1200";
                  "Stop"] readonly_world))
     = [].
Proof. split; reflexivity. Qed.

(** C10: a [Start] command whose tokens carry no [Path=] leaves [path] at
    [None]; with an idle camera present [start_recording] then raises
    [AttributeError] at [path.split] before anything is done, so the
    request is not answered and the loop is dead. *)
Theorem start_without_path_is_fatal
        (w : World) (c : Camera.t) (msg : string) (tokens rest : list string)
        (experiment recording : Z) :
  camera (controller w) = Some c ->
  Camera.recording c = false ->
  split_ws msg = "Start" :: tokens ->
  start_arguments tokens (0, 1, None) = Ok (experiment, recording, None) ->
  start_callback experiment recording None w = (Raise AttributeError, w)
  /\ serve msg w = (Raise AttributeError, w)
  /\ (is_running w = true ->
      serve_loop (msg :: rest) w = (Died AttributeError, w)).
Proof.
  intros Hc Hr Hsplit Hargs.
  assert (Hcall : start_callback experiment recording None w
                  = (Raise AttributeError, w)).
  { unfold start_callback, start_recording. unfold bind at 1.
    now rewrite (camera_idle_ready w c Hc Hr). }
  assert (Hserve : serve msg w = (Raise AttributeError, w)).
  { rewrite (serve_start msg tokens w _ _ _ Hsplit Hargs).
    unfold bind at 1. now rewrite Hcall. }
  repeat split; auto.
  intros Hrun. now apply serve_loop_dies.
Qed.

Lemma start_without_path_is_fatal_witness :
  start_callback 2 1 None idle_world = (Raise AttributeError, idle_world)
  /\ serve "Start Experiment=2" idle_world = (Raise AttributeError, idle_world)
  /\ (is_running idle_world = true ->
      serve_loop ["Start Experiment=2"; "Stop"] idle_world
      = (Died AttributeError, idle_world)).
Proof.
  apply (start_without_path_is_fatal
           idle_world idle_camera "Start Experiment=2" ["Experiment=2"]
           ["Stop"] 2 1);
    reflexivity.
Defined.

(* ================================================================= *)
(** ** ResetGains *)

(** The [ResetGains] branch of the loop body: the reply, then the call. *)
Lemma serve_reset_gains (msg : string) (tokens : list string) (w : World) :
  split_ws msg = "ResetGains" :: tokens ->
  serve msg w
  = (socket_send "Done (but wait at least 2 seconds)" ;;
     parameter_callback PResetGains ;;
     ret Continue) w.
Proof. intros Hsplit. unfold serve. now rewrite Hsplit. Qed.

(** What [reset_gains] logs is gain-reset work only, whatever state the
    camera is in and whether or not it raises. *)
Lemma reset_gains_log (kwargs : PreviewArgs) (w : World) :
  exists work,
    log (snd (reset_gains kwargs w)) = (log w ++ work)%list
    /\ forallb is_reset_work work = true.
Proof.
  destruct w as [[base cl [c|]] f running lg].
  - destruct c as [fr res vf hf zm am ag em ss es br sm wft tto rec prev clo].
    destruct kwargs as [wt g fa fe].
    destruct rec, prev, g; cbn; rewrite <- ?app_assoc; cbn [app];
      try (eexists; split; [reflexivity | reflexivity]);
      exists []; rewrite app_nil_r; split; reflexivity.
  - exists []. cbn. rewrite app_nil_r. split; reflexivity.
Qed.

(** C7: serving [ResetGains] logs the reply
    ["Done (but wait at least 2 seconds)"] first and the gain-reset work
    after it: [reset_gains] runs in the world where the reply is already
    sent, and everything it logs (stopping the recording and the preview,
    the delays, a restarted preview) comes after the reply. *)
Theorem reset_gains_reply_first
        (msg : string) (tokens : list string) (w : World) :
  split_ws msg = "ResetGains" :: tokens ->
  exists work,
    snd (serve msg w)
    = snd (reset_gains default_preview_args
                       (logged (Send "Done (but wait at least 2 seconds)") w))
    /\ log (snd (serve msg w))
       = (log w ++ Send "Done (but wait at least 2 seconds)" :: work)%list
    /\ forallb is_reset_work work = true.
Proof.
  intros Hsplit. rewrite (serve_reset_gains msg tokens w Hsplit).
  set (w1 := logged (Send "Done (but wait at least 2 seconds)") w).
  destruct (reset_gains_log default_preview_args w1) as (work & Hlog & Hwork).
  assert (Hsnd : snd ((socket_send "Done (but wait at least 2 seconds)" ;;
                       parameter_callback PResetGains ;; ret Continue) w)
                 = snd (reset_gains default_preview_args w1)).
  { assert (Hsend : socket_send "Done (but wait at least 2 seconds)" w
                    = (Ok tt, w1)) by reflexivity.
    unfold bind at 1. rewrite Hsend.
    unfold parameter_callback, bind.
    destruct (reset_gains default_preview_args w1) as [[u|e] w2]; reflexivity. }
  exists work. rewrite Hsnd. repeat split; auto.
  rewrite Hlog. subst w1. cbn [logged log]. now rewrite <- app_assoc.
Qed.

Lemma reset_gains_reply_first_witness :
  exists work,
    snd (serve "ResetGains" recording_world)
    = snd (reset_gains default_preview_args
                       (logged (Send "Done (but wait at least 2 seconds)")
                               recording_world))
    /\ log (snd (serve "ResetGains" recording_world))
       = (log recording_world
              ++ Send "Done (but wait at least 2 seconds)" :: work)%list
    /\ forallb is_reset_work work = true.
Proof.
  apply (reset_gains_reply_first "ResetGains" [] recording_world).
  reflexivity.
Defined.

(** The same on a camera that records and previews: the reply, the
    recording and the preview stopped, the delay, and then the
    [NameError] of [start_preview]. *)
Example reset_gains_trace :
  let w := world_with "/rec"
             (Some (Camera.set_previewing true
                      (Camera.set_recording true idle_camera))) [] in
  fst (serve "ResetGains" w) = Raise NameError
  /\ log (snd (serve "ResetGains" w))
     = [Send "Done (but wait at least 2 seconds)"; CamStopRecording;
        CamStopPreview; Sleep (1 # 10)].
Proof. split; reflexivity. Qed.

(* ================================================================= *)
(** ** The zoom rectangle *)

(** The order of floats, NaN apart. *)
Lemma flt_fle (a b : pyfloat) : flt a b = true -> fle a b = true.
Proof.
  destruct a, b; cbn; try easy.
  intros H. apply negb_true_iff in H.
  apply Qle_bool_iff. apply Qlt_le_weak. apply Qnot_le_lt.
  intros L. apply Qle_bool_iff in L. congruence.
Qed.

Lemma flt_false_fle (a b : pyfloat) :
  is_number a = true -> is_number b = true ->
  flt a b = false -> fle b a = true.
Proof.
  destruct a, b; cbn; try easy.
  intros _ _ H. now apply negb_false_iff in H.
Qed.

Lemma fle_trans (a b c : pyfloat) :
  fle a b = true -> fle b c = true -> fle a c = true.
Proof.
  destruct a, b, c; cbn; try easy.
  intros H1 H2. apply Qle_bool_iff in H1, H2. apply Qle_bool_iff.
  now apply Qle_trans with q0.
Qed.

Lemma fle_number (a b : pyfloat) :
  fle a b = true -> is_number a = true /\ is_number b = true.
Proof. destruct a, b; cbn; try easy. Qed.

Lemma pick_number (b : bool) (x y : pyfloat) :
  is_number x = true -> is_number y = true ->
  is_number (if b then x else y) = true.
Proof. now destruct b. Qed.

(** The running minimum is above a bound exactly when every element seen
    is. *)
Lemma fold_min_bound (z : pyfloat) (rest : list pyfloat) (x : pyfloat) :
  is_number x = true ->
  forallb is_number rest = true ->
  fle z (fold_left (fun cur item => if flt item cur then item else cur) rest x)
  = (fle z x && forallb (fle z) rest)%bool.
Proof.
  revert x. induction rest as [|y rest IH]; intros x Hx Hrest; cbn.
  - now rewrite andb_true_r.
  - cbn in Hrest. apply andb_true_iff in Hrest as [Hy Hrest].
    rewrite IH by (auto using pick_number).
    rewrite andb_assoc. f_equal.
    destruct (flt y x) eqn:Hlt.
    + apply flt_fle in Hlt.
      destruct (fle z y) eqn:Hzy.
      * now rewrite (fle_trans z y x Hzy Hlt).
      * now rewrite andb_false_r.
    + apply (flt_false_fle y x Hy Hx) in Hlt.
      destruct (fle z x) eqn:Hzx.
      * now rewrite (fle_trans z x y Hzx Hlt).
      * reflexivity.
Qed.

(** The running maximum is below a bound exactly when every element seen
    is. *)
Lemma fold_max_bound (z : pyfloat) (rest : list pyfloat) (x : pyfloat) :
  is_number x = true ->
  forallb is_number rest = true ->
  fle (fold_left (fun cur item => if fgt item cur then item else cur) rest x) z
  = (fle x z && forallb (fun y => fle y z) rest)%bool.
Proof.
  revert x. induction rest as [|y rest IH]; intros x Hx Hrest; cbn.
  - now rewrite andb_true_r.
  - cbn in Hrest. apply andb_true_iff in Hrest as [Hy Hrest].
    rewrite IH by (auto using pick_number).
    rewrite andb_assoc. f_equal. unfold fgt.
    destruct (flt x y) eqn:Hlt.
    + apply flt_fle in Hlt.
      destruct (fle y z) eqn:Hyz.
      * now rewrite (fle_trans x y z Hlt Hyz).
      * now rewrite andb_false_r.
    + apply (flt_false_fle x y Hx Hy) in Hlt.
      destruct (fle x z) eqn:Hxz.
      * now rewrite (fle_trans y x z Hlt Hxz).
      * reflexivity.
Qed.

Lemma forallb_in_unit (coords : list pyfloat) :
  forallb in_unit coords
  = (forallb (fle (of_Z 0)) coords
     && forallb (fun y => fle y (of_Z 1)) coords)%bool.
Proof.
  induction coords as [|x xs IH]; cbn [forallb]; [reflexivity|].
  rewrite IH. unfold in_unit.
  destruct (fle (of_Z 0) x), (fle x (of_Z 1)),
           (forallb (fle (of_Z 0)) xs); reflexivity.
Qed.

(** On coordinates that are all numbers, the guard of the zoom setter is
    the length check and the range check of every element. *)
Lemma zoom_guard_numbers (coords : list pyfloat) :
  forallb is_number coords = true ->
  zoom_guard coords
  = Ok (Nat.eqb (length coords) 4 && forallb in_unit coords)%bool.
Proof.
  intros Hnum. unfold zoom_guard.
  destruct (Nat.eqb (length coords) 4) eqn:Hlen; [|reflexivity].
  destruct coords as [|x rest]; [discriminate|].
  cbn [py_min py_max]. cbn in Hnum. apply andb_true_iff in Hnum as [Hx Hrest].
  unfold fge. rewrite fold_min_bound, fold_max_bound by assumption.
  rewrite forallb_in_unit. cbn [forallb andb].
  destruct (fle (of_Z 0) x && forallb (fle (of_Z 0)) rest)%bool; reflexivity.
Qed.

(** Coordinates in the unit interval are numbers. *)
Lemma in_unit_numbers (coords : list pyfloat) :
  forallb in_unit coords = true -> forallb is_number coords = true.
Proof.
  induction coords as [|x xs IH]; cbn; [reflexivity|].
  intros H. apply andb_true_iff in H as [Hx Hxs].
  unfold in_unit in Hx. apply andb_true_iff in Hx as [H0 _].
  apply fle_number in H0 as [_ ->]. now apply IH.
Qed.

(** Four coordinates in the unit interval always pass the guard. *)
Lemma zoom_guard_accepts (coords : list pyfloat) :
  length coords = 4%nat ->
  forallb in_unit coords = true ->
  zoom_guard coords = Ok true.
Proof.
  intros Hlen Hunit.
  rewrite zoom_guard_numbers by now apply in_unit_numbers.
  now rewrite Hlen, Hunit.
Qed.

(** The guard never raises: [min] and [max] are only reached on a list of
    four. *)
Lemma zoom_guard_total (coords : list pyfloat) :
  exists b, zoom_guard coords = Ok b.
Proof.
  unfold zoom_guard.
  destruct (Nat.eqb (length coords) 4) eqn:Hlen; [|now exists false].
  destruct coords as [|x rest]; [discriminate|].
  cbn [py_min py_max].
  destruct (fge _ _); eexists; reflexivity.
Qed.

(** The setter writes the rectangle exactly when the guard holds. *)
Lemma zoom_setter_guard (coords : list pyfloat) (w : World) (b : bool) :
  zoom_guard coords = Ok b ->
  zoom_setter coords w = (Ok tt, if b then zoomed coords w else w).
Proof.
  intros Hg. destruct w as [[base cl [c|]] f running lg].
  - unfold zoom_setter, bind, self_camera, lift. cbn [controller camera].
    rewrite Hg. now destruct b.
  - now destruct b.
Qed.

(** C4 on coordinates that are all numbers: the rectangle is written if
    and only if there are four coordinates, each in the unit interval;
    otherwise the world is as before. *)
Lemma zoom_setter_numbers (coords : list pyfloat) (w : World) :
  forallb is_number coords = true ->
  zoom_setter coords w
  = (Ok tt,
     if (Nat.eqb (length coords) 4 && forallb in_unit coords)%bool
     then zoomed coords w else w).
Proof.
  intros Hnum. apply zoom_setter_guard. now apply zoom_guard_numbers.
Qed.

(** C4 fails where a NaN is not the first coordinate: [min] and [max] keep
    their first argument against a NaN, the guard holds, and the
    rectangle is written although one coordinate is not in the unit
    interval. *)
Theorem zoom_setter_writes_nan :
  let coords := [Fin (1 # 2); NaN; Fin (1 # 2); Fin (1 # 2)] in
  forallb in_unit coords = false
  /\ py_min coords = Ok (Fin (1 # 2))
  /\ py_max coords = Ok (Fin (1 # 2))
  /\ zoom_guard coords = Ok true
  /\ zoom_setter coords idle_world = (Ok tt, zoomed coords idle_world)
  /\ zoom_of (zoomed coords idle_world) = Some coords
  /\ floats ["0.5"; "nan"; "0.5"; "0.5"] = Ok coords
  /\ serve "Zoom 0.5 nan 0.5 0.5" idle_world
     = (Ok Continue, logged (Send "Done") (zoomed coords idle_world)).
Proof. repeat split. Qed.

(* ================================================================= *)
(** ** One reply per request *)

Lemma bind_lift {A B : Type} (r : Result A) (k : A -> M B) (w : World) :
  bind (lift r) k w
  = match r with
    | Ok a => k a w
    | Raise e => (Raise e, w)
    end.
Proof. now destruct r. Qed.

(** *** What the controller does sends nothing *)

Lemma silent_ret {A : Type} (a : A) : silent (ret a).
Proof. intros w. reflexivity. Qed.

Lemma silent_raise {A : Type} (e : exn) : silent (@raise A e).
Proof. intros w. reflexivity. Qed.

Lemma silent_lift {A : Type} (r : Result A) : silent (lift r).
Proof. intros w. reflexivity. Qed.

Lemma silent_bind {A B : Type} (m : M A) (k : A -> M B) :
  silent m -> (forall a, silent (k a)) -> silent (bind m k).
Proof.
  intros Hm Hk w. unfold bind. specialize (Hm w).
  destruct (m w) as [[a|e] w1]; cbn in *.
  - now rewrite Hk.
  - exact Hm.
Qed.

Lemma silent_when (b : bool) (m : M unit) : silent m -> silent (when b m).
Proof. destruct b; [trivial | intros _; apply silent_ret]. Qed.

Lemma replies_logged (e : Event) (w : World) :
  replies (logged e w)
  = (replies w ++ match e with Send r => [r] | _ => [] end)%list.
Proof.
  unfold replies, logged. cbn [log]. rewrite flat_map_app. cbn.
  now rewrite app_nil_r.
Qed.

Lemma silent_emit (e : Event) :
  match e with Send _ => False | _ => True end -> silent (emit e).
Proof.
  intros He w. change (snd (emit e w)) with (logged e w).
  rewrite replies_logged. destruct e; try contradiction; apply app_nil_r.
Qed.

Lemma silent_self_camera : silent self_camera.
Proof. intros w. reflexivity. Qed.

Lemma silent_set_self_camera (v : option Camera.t) : silent (set_self_camera v).
Proof. intros w. reflexivity. Qed.

Lemma silent_set_self_closed : silent set_self_closed.
Proof. intros w. reflexivity. Qed.

Lemma silent_self_data_path : silent self_data_path.
Proof. intros w. reflexivity. Qed.

Lemma silent_path_exists (p : string) : silent (path_exists p).
Proof. intros w. reflexivity. Qed.

Lemma silent_makedirs (p : string) : silent (makedirs p).
Proof.
  intros w. unfold makedirs. destruct (mem p (fs_denied (fs w))); [reflexivity|].
  now rewrite (silent_emit (MakeDirs p) I).
Qed.

Lemma silent_write_json (p : string) (params : Params) :
  silent (write_json p params).
Proof.
  intros w. unfold write_json. destruct (mem p (fs_denied (fs w))); [reflexivity|].
  now rewrite (silent_emit (WriteFile p) I).
Qed.

Lemma silent_lookup_name (scope : list string) (name : string) :
  silent (lookup_name scope name).
Proof.
  unfold lookup_name. destruct (mem name scope);
    [apply silent_ret | apply silent_raise].
Qed.

Create HintDb silent.

#[local] Hint Resolve silent_ret silent_raise silent_lift silent_when
  silent_self_camera silent_set_self_camera silent_set_self_closed
  silent_self_data_path silent_path_exists silent_makedirs silent_write_json
  silent_lookup_name : silent.

(** Sequencing, branching on a value, and the primitives. *)
Ltac silence :=
  repeat first
    [ apply silent_bind; [|intro]
    | apply silent_when
    | apply silent_emit; exact I
    | solve [auto with silent]
    | match goal with
      | |- silent (match ?x with _ => _ end) => destruct x
      end ].

Lemma silent_cam_get {A : Type} (attr : Camera.t -> A) : silent (cam_get attr).
Proof. unfold cam_get. silence. Qed.

Lemma silent_cam_set (update : Camera.t -> Camera.t) : silent (cam_set update).
Proof. unfold cam_set. silence. Qed.

#[local] Hint Resolve silent_cam_get silent_cam_set : silent.

Lemma silent_camera_idle : silent camera_idle.
Proof. unfold camera_idle. silence. Qed.

#[local] Hint Resolve silent_camera_idle : silent.

Lemma silent_cam_stop_recording : silent cam_stop_recording.
Proof. unfold cam_stop_recording. silence. Qed.

Lemma silent_cam_stop_preview : silent cam_stop_preview.
Proof. unfold cam_stop_preview. silence. Qed.

Lemma silent_cam_start_preview : silent cam_start_preview.
Proof. unfold cam_start_preview. silence. Qed.

Lemma silent_cam_start_recording (p : string) (q : Z) :
  silent (cam_start_recording p q).
Proof. unfold cam_start_recording. silence. Qed.

Lemma silent_cam_close : silent cam_close.
Proof. unfold cam_close. silence. Qed.

#[local] Hint Resolve silent_cam_stop_recording silent_cam_stop_preview
  silent_cam_start_preview silent_cam_start_recording silent_cam_close : silent.

Lemma silent_start_preview (args : PreviewArgs) : silent (start_preview args).
Proof. unfold start_preview, sleep. silence. Qed.

#[local] Hint Resolve silent_start_preview : silent.

Lemma silent_start_callback (experiment recording : Z) (path : option string) :
  silent (start_callback experiment recording path).
Proof. unfold start_callback, start_recording, split_path. silence. Qed.

Lemma silent_parameter_callback (p : ParameterCall) :
  silent (parameter_callback p).
Proof.
  destruct p; cbn [parameter_callback];
    unfold stop_recording, is_recording, close, cleanup, resolution_setter,
      framerate_setter, reset_gains, get_gains, set_gains, vflip_setter,
      hflip_setter, zoom_setter, sleep;
    silence.
Qed.

(** *** What a branch of the loop body sends *)

Lemma answers_once_lift_bind {A B : Type} (r : Result A) (k : A -> M B) :
  (forall a, answers_once (k a)) -> answers_once (bind (lift r) k).
Proof.
  intros Hk w. rewrite bind_lift. destruct r as [a|e]; [apply Hk | reflexivity].
Qed.

Lemma answers_once_silent_bind {A B : Type} (m : M A) (k : A -> M B) :
  silent m -> (forall a, answers_once (k a)) -> answers_once (bind m k).
Proof.
  intros Hm Hk w. unfold bind. specialize (Hm w).
  destruct (m w) as [[a|e] w1]; cbn in Hm.
  - specialize (Hk a w1). destruct (k a w1) as [[b|e] w2]; now rewrite <- Hm.
  - exact Hm.
Qed.

Lemma answers_once_send (reply : string) : answers_once (socket_send reply).
Proof.
  intros w. change (socket_send reply w) with (Ok tt, logged (Send reply) w).
  exists reply. apply replies_logged.
Qed.

Lemma answers_once_then {A B : Type} (m : M A) (b : B) :
  answers_once m -> answers_once (m ;; ret b).
Proof.
  intros Hm w. unfold bind. specialize (Hm w).
  destruct (m w) as [[a|e] w1]; exact Hm.
Qed.

Lemma answers_once_raise {A : Type} (e : exn) : answers_once (@raise A e).
Proof. intros w. reflexivity. Qed.

(** A reply and then the end of the pass. *)
Lemma answers_once_reply (reply : string) (c : Control) :
  answers_once (socket_send reply ;; ret c).
Proof.
  apply answers_once_then, answers_once_send.
Qed.

(** A call back, a reply, the end of the pass. *)
Lemma answers_once_call (p : ParameterCall) (reply : string) (c : Control) :
  answers_once (parameter_callback p ;; socket_send reply ;; ret c).
Proof.
  apply answers_once_silent_bind;
    [apply silent_parameter_callback | intros; apply answers_once_reply].
Qed.

Section LoopBody.

Local Arguments index : simpl never.
Local Arguments String.eqb : simpl never.

Variables (msg : string) (w : World).

(** A request whose arguments fail to convert is not answered: the
    exception leaves the loop body with the world untouched. *)
Lemma serve_unreadable (e : exn) :
  read_arguments (split_ws msg) = Raise e -> serve msg w = (Raise e, w).
Proof.
  unfold read_arguments, serve.
  destruct (split_ws msg) as [|cmd tokens].
  - cbn. intros [= <-]. reflexivity.
  - change (index (cmd :: tokens) 0) with (Ok cmd).
    rewrite bind_lift. cbv beta iota.
    unfold both, ignore, int_at, float_at.
    repeat match goal with
           | |- context [if String.eqb cmd ?s then _ else _] =>
               destruct (String.eqb cmd s)
           end;
      try discriminate;
      repeat (rewrite ?bind_lift;
              match goal with
              | |- context [match index ?l ?i with Ok _ => _ | Raise _ => _ end] =>
                  destruct (index l i)
              | |- context [match py_int ?s with Ok _ => _ | Raise _ => _ end] =>
                  destruct (py_int s)
              | |- context [match py_float ?s with Ok _ => _ | Raise _ => _ end] =>
                  destruct (py_float s)
              | |- context [match floats ?l with Ok _ => _ | Raise _ => _ end] =>
                  destruct (floats l)
              | |- context [match start_arguments ?l ?a with Ok _ => _ | Raise _ => _ end] =>
                  destruct (start_arguments l a)
              end; cbv beta iota);
      try discriminate;
      intros [= <-]; reflexivity.
Qed.

(** Every pass through the loop body that returns has sent exactly one
    reply; a pass that raises has sent none, except after [ResetGains],
    whose reply goes out before the work. *)
Lemma serve_replies :
  match serve msg w with
  | (Ok _, w') => exists reply, replies w' = (replies w ++ [reply])%list
  | (Raise _, w') =>
      replies w' = replies w
      \/ (index (split_ws msg) 0 = Ok "ResetGains"
          /\ replies w'
             = (replies w ++ ["Done (but wait at least 2 seconds)"])%list)
  end.
Proof.
  unfold serve.
  destruct (split_ws msg) as [|cmd tokens]; [left; reflexivity|].
  change (index (cmd :: tokens) 0) with (Ok cmd).
  rewrite bind_lift. cbv beta iota.
  repeat match goal with
         | |- context [if String.eqb cmd ?s then _ else _] =>
             destruct (String.eqb cmd s) eqn:?
         end;
    try match goal with
        | H : String.eqb cmd "ResetGains" = true |- _ =>
            apply String.eqb_eq in H; subst cmd;
            pose proof (silent_parameter_callback PResetGains
                          (logged (Send "Done (but wait at least 2 seconds)") w))
              as Hsilent;
            rewrite replies_logged in Hsilent;
            unfold bind at 1;
            change (socket_send "Done (but wait at least 2 seconds)" w)
              with (Ok tt, logged (Send "Done (but wait at least 2 seconds)") w);
            cbv beta iota; unfold bind at 1;
            destruct (parameter_callback PResetGains _) as [[g|e] w1];
            [ eexists; exact Hsilent
            | right; split; [reflexivity | exact Hsilent] ]
        end;
    match goal with
    | |- match ?m w with _ => _ end =>
        assert (Honce : answers_once m);
        [ | specialize (Honce w); destruct (m w) as [[c|e] w1];
            [exact Honce | left; exact Honce] ]
    end;
    repeat first
      [ apply answers_once_call
      | apply answers_once_reply
      | apply answers_once_send
      | apply answers_once_lift_bind; intro
      | apply answers_once_raise
      | match goal with
        | |- answers_once (match ?a with _ => _ end) =>
            is_var a; destruct a as [[? ?] ?]
        | |- answers_once (bind (start_callback _ _ _) _) =>
            apply answers_once_silent_bind;
            [apply silent_start_callback | intro]
        | |- answers_once (bind (parameter_callback PGetGains) _) =>
            apply answers_once_silent_bind;
            [apply silent_parameter_callback | intro]
        | |- answers_once (bind (match ?g with Some _ => _ | None => _ end) _) =>
            apply answers_once_then; destruct g
        end ].
Qed.

End LoopBody.

(** C1, as the code has it: a pass through the loop body that returns has
    sent exactly one reply.  Nothing in [run] catches an exception: a
    request whose arguments do not convert (a missing token, a token
    that [int] or [float] rejects, a [Start] token that is not
    [name=value], an empty message) raises out of the loop body with the
    world untouched, so it gets no reply; and whenever the loop body
    raises, the loop ends there and the rest of the inbox is never
    served. *)
Theorem one_reply_unless_raise (msg : string) (w : World) :
  (forall c w',
      serve msg w = (Ok c, w') ->
      exists reply, replies w' = (replies w ++ [reply])%list)
  /\ (forall e,
         read_arguments (split_ws msg) = Raise e ->
         serve msg w = (Raise e, w))
  /\ (forall e w' rest,
         serve msg w = (Raise e, w') ->
         is_running w = true ->
         serve_loop (msg :: rest) w = (Died e, w')).
Proof.
  split; [|split].
  - intros c w' Hserve. pose proof (serve_replies msg w) as H.
    now rewrite Hserve in H.
  - intros e. apply serve_unreadable.
  - intros e w' rest Hserve Hrun. now apply serve_loop_dies.
Qed.

Lemma one_reply_unless_raise_witness :
  (exists reply,
      replies (logged (Send "Stopped") idle_world)
      = (replies idle_world ++ [reply])%list)
  /\ serve "Resolution abc 480" idle_world = (Raise ValueError, idle_world)
  /\ serve_loop ["Resolution 640"; "Stop"] idle_world
     = (Died IndexError, idle_world).
Proof.
  destruct (one_reply_unless_raise "Stop" idle_world) as [H1 _].
  destruct (one_reply_unless_raise "Resolution abc 480" idle_world)
    as (_ & H2 & _).
  destruct (one_reply_unless_raise "Resolution 640" idle_world)
    as (_ & _ & H3).
  split; [|split].
  - apply (H1 Continue). reflexivity.
  - apply H2. reflexivity.
  - apply H3; reflexivity.
Defined.

(** C1 fails on the code: a non-numeric width is not answered with an
    error string; the loop dies with [ValueError], nothing is sent, and
    the [Stop] that follows is never served. *)
Lemma malformed_request_unanswered :
  fst (run ["Resolution abc 480"; "Stop"] idle_world) = Died ValueError
  /\ replies (snd (run ["Resolution abc 480"; "Stop"] idle_world)) = [].
Proof. split; reflexivity. Qed.

(* ================================================================= *)
(** ** Stopping and tearing down *)

(** [stop_recording] never raises; it stops the camera's recording if one
    is running and does nothing otherwise; afterwards the controller is
    not recording, and a second call changes nothing. *)
Theorem stop_recording_idempotent (w : World) :
  exists w',
    stop_recording w = (Ok tt, w')
    /\ log w' = (log w ++ stop_events (camera (controller w)))%list
    /\ fs w' = fs w
    /\ is_recording w' = (Ok false, w')
    /\ stop_recording w' = (Ok tt, w').
Proof.
  destruct w as [[base cl [c|]] f running lg].
  - destruct c as [fr res vf hf zm am ag em ss es br sm wft tto rec prev clo].
    destruct rec; eexists; (split; [reflexivity|]); cbn;
      rewrite ?app_nil_r; repeat split; reflexivity.
  - eexists. split; [reflexivity|]. cbn. rewrite app_nil_r.
    repeat split; reflexivity.
Qed.

(** What [cleanup] does, in any state. *)
Lemma cleanup_run (w : World) :
  exists w',
    cleanup w = (Ok tt, w')
    /\ camera (controller w') = None
    /\ closed (controller w') = true
    /\ data_path (controller w') = data_path (controller w)
    /\ log w' = (log w ++ teardown_events (camera (controller w)))%list
    /\ fs w' = fs w
    /\ cleanup w' = (Ok tt, w').
Proof.
  destruct w as [[base cl [c|]] f running lg].
  - destruct c as [fr res vf hf zm am ag em ss es br sm wft tto rec prev clo].
    destruct rec, prev, clo; eexists; (split; [reflexivity|]); cbn;
      rewrite <- ?app_assoc, ?app_nil_r; repeat split; reflexivity.
  - eexists. split; [reflexivity|]. cbn. rewrite app_nil_r.
    repeat split; reflexivity.
Qed.

(** [cleanup] never raises, whatever state the camera is in: it stops
    the recording and the preview if they run and closes the camera if it
    is open, in that order, drops the camera and marks the controller
    closed; the file system is untouched.  From then on the controller
    is without a camera: a second [cleanup] does nothing, [get_gains]
    and [start_recording] return [None], and [reset_gains] and
    [stop_recording] do nothing. *)
Theorem cleanup_releases_camera (w : World) :
  exists w',
    cleanup w = (Ok tt, w')
    /\ camera (controller w') = None
    /\ closed (controller w') = true
    /\ log w' = (log w ++ teardown_events (camera (controller w)))%list
    /\ fs w' = fs w
    /\ cleanup w' = (Ok tt, w')
    /\ get_gains w' = (Ok None, w')
    /\ (forall filename experiment recording path quality,
           start_recording filename experiment recording path quality w'
           = (Ok None, w'))
    /\ (forall kwargs, reset_gains kwargs w' = (Ok tt, w'))
    /\ stop_recording w' = (Ok tt, w').
Proof.
  destruct (cleanup_run w) as (w' & Hc & Hcam & Hcl & _ & Hlog & Hfs & Hagain).
  exists w'. repeat (split; [assumption|]).
  assert (Hidle := camera_idle_absent w' Hcam).
  repeat split; intros;
    unfold get_gains, start_recording, reset_gains, stop_recording,
      is_recording, bind;
    try rewrite Hidle; try (unfold self_camera; rewrite Hcam); reflexivity.
Qed.

(** With no preview running, [reset_gains] is [stop_recording]: it stops
    a running recording and does nothing else, and it does not raise. *)
Theorem reset_gains_without_preview
        (w : World) (c : Camera.t) (kwargs : PreviewArgs) :
  camera (controller w) = Some c ->
  Camera.previewing c = false ->
  reset_gains kwargs w = stop_recording w
  /\ exists w', reset_gains kwargs w = (Ok tt, w')
                /\ log w' = (log w ++ stop_events (Some c))%list.
Proof.
  destruct w as [[base cl cam] f running lg]. cbn [controller camera].
  intros -> Hp.
  destruct c as [fr res vf hf zm am ag em ss es br sm wft tto rec prev clo].
  cbn in Hp. subst prev.
  destruct rec; (split; [reflexivity|]); eexists; (split; [reflexivity|]);
    cbn; rewrite ?app_nil_r; reflexivity.
Qed.

Lemma reset_gains_without_preview_witness :
  reset_gains default_preview_args recording_world
  = stop_recording recording_world
  /\ exists w', reset_gains default_preview_args recording_world = (Ok tt, w')
                /\ log w' = (log recording_world
                              ++ stop_events
                                   (Some (Camera.set_recording true idle_camera)))%list.
Proof.
  apply (reset_gains_without_preview
           recording_world (Camera.set_recording true idle_camera));
    reflexivity.
Defined.

(** With a preview running, [reset_gains] leaves the camera without
    preview and without recording, white balance and exposure switched
    as [start_preview] had begun to, and then raises: the preview is not
    restored. *)
Theorem reset_gains_loses_preview
        (w : World) (c : Camera.t) (kwargs : PreviewArgs) :
  camera (controller w) = Some c ->
  Camera.previewing c = true ->
  exists w' c',
    reset_gains kwargs w = (Raise NameError, w')
    /\ camera (controller w') = Some c'
    /\ Camera.previewing c' = false
    /\ Camera.recording c' = false
    /\ Camera.exposure_mode c' = "auto"
    /\ Camera.awb_mode c'
       = match awb_gains kwargs with Some _ => "off" | None => "auto" end
    /\ Camera.shutter_speed c' = Camera.shutter_speed c
    /\ fs w' = fs w.
Proof.
  destruct w as [[base cl cam] f running lg]. cbn [controller camera].
  intros -> Hp.
  destruct c as [fr res vf hf zm am ag em ss es br sm wft tto rec prev clo].
  cbn in Hp. subst prev.
  destruct kwargs as [wt [g|] fa fe], rec;
    do 2 eexists; (split; [reflexivity|]); cbn; repeat split; reflexivity.
Qed.

Lemma reset_gains_loses_preview_witness :
  exists w' c',
    reset_gains default_preview_args previewing_world = (Raise NameError, w')
    /\ camera (controller w') = Some c'
    /\ Camera.previewing c' = false
    /\ Camera.recording c' = false
    /\ Camera.exposure_mode c' = "auto"
    /\ Camera.awb_mode c'
       = match awb_gains default_preview_args with
         | Some _ => "off"
         | None => "auto"
         end
    /\ Camera.shutter_speed c'
       = Camera.shutter_speed (Camera.set_previewing true idle_camera)
    /\ fs w' = fs previewing_world.
Proof.
  apply (reset_gains_loses_preview
           previewing_world (Camera.set_previewing true idle_camera));
    reflexivity.
Defined.

(* ================================================================= *)
(** ** More of the loop *)

Section Verbs.

Local Arguments String.eqb : simpl never.

Variables (msg cmd : string) (tokens : list string) (w : World).
Hypothesis request : split_ws msg = cmd :: tokens.

(** The [Stop] branch. *)
Lemma serve_stop :
  cmd = "Stop" ->
  serve msg w = (parameter_callback PStop ;; socket_send "Stopped" ;; ret Continue) w.
Proof. intros ->. unfold serve. now rewrite request. Qed.

(** The [Close] branch. *)
Lemma serve_close :
  cmd = "Close" ->
  serve msg w = (parameter_callback PClose ;; socket_send "Closing" ;; ret Break) w.
Proof. intros ->. unfold serve. now rewrite request. Qed.

(** The [GetGains] branch. *)
Lemma serve_get_gains :
  cmd = "GetGains" ->
  serve msg w
  = (gains <- parameter_callback PGetGains ;;
     match gains with
     | Some g =>
         g0 <- lift (index g 0) ;;
         g1 <- lift (index g 1) ;;
         socket_send (format_6f g0 ++ " " ++ format_6f g1)
     | None => raise TypeError
     end ;;
     ret Continue) w.
Proof. intros ->. unfold serve. now rewrite request. Qed.


End Verbs.

(** [Stop] is always answered with ["Stopped"] and the loop goes on,
    whatever state the controller is in; afterwards nothing records. *)
Theorem stop_always_answered
        (msg : string) (tokens : list string) (w : World) :
  split_ws msg = "Stop" :: tokens ->
  exists w',
    serve msg w = (Ok Continue, w')
    /\ log w' = (log w ++ stop_events (camera (controller w))
                       ++ [Send "Stopped"])%list
    /\ is_recording w' = (Ok false, w')
    /\ fs w' = fs w.
Proof.
  intros Hsplit. rewrite (serve_stop msg "Stop" tokens w Hsplit eq_refl).
  destruct w as [[base cl [c|]] f running lg].
  - destruct c as [fr res vf hf zm am ag em ss es br sm wft tto rec prev clo].
    destruct rec; eexists; (split; [reflexivity|]); cbn;
      rewrite <- ?app_assoc; repeat split; reflexivity.
  - eexists. split; [reflexivity|]. repeat split; reflexivity.
Qed.

Lemma stop_always_answered_witness :
  exists w',
    serve "Stop" recording_world = (Ok Continue, w')
    /\ log w' = (log recording_world
                     ++ stop_events (camera (controller recording_world))
                     ++ [Send "Stopped"])%list
    /\ is_recording w' = (Ok false, w')
    /\ fs w' = fs recording_world.
Proof.
  apply (stop_always_answered "Stop" [] recording_world). reflexivity.
Defined.

(** [Close] tears the camera down, answers ["Closing"] and ends the
    loop: [run] returns, what is left in the inbox is never read, and the
    controller is closed and without a camera. *)
Theorem close_ends_loop
        (msg : string) (tokens rest : list string) (w : World) :
  split_ws msg = "Close" :: tokens ->
  is_running w = true ->
  exists w',
    serve_loop (msg :: rest) w = (Returned, w')
    /\ log w' = (log w ++ teardown_events (camera (controller w))
                       ++ [Send "Closing"])%list
    /\ camera (controller w') = None
    /\ closed (controller w') = true
    /\ fs w' = fs w.
Proof.
  intros Hsplit Hrun.
  destruct (cleanup_run w) as (w1 & Hc & Hcam & Hcl & _ & Hlog & Hfs & _).
  exists (logged (Send "Closing") w1).
  split.
  - cbn [serve_loop]. rewrite Hrun. cbn [negb].
    rewrite (serve_close msg "Close" tokens w Hsplit eq_refl).
    unfold parameter_callback, close, bind. now rewrite Hc.
  - cbn [logged log controller fs]. rewrite Hlog, <- app_assoc. auto.
Qed.

Lemma close_ends_loop_witness :
  exists w',
    serve_loop ["Close"; "Stop"] recording_world = (Returned, w')
    /\ log w' = (log recording_world
                     ++ teardown_events (camera (controller recording_world))
                     ++ [Send "Closing"])%list
    /\ camera (controller w') = None
    /\ closed (controller w') = true
    /\ fs w' = fs recording_world.
Proof.
  apply (close_ends_loop "Close" [] ["Stop"] recording_world); reflexivity.
Defined.

(** A verb that is none of the eleven is answered ["Not handled"] and
    changes nothing else; verbs are matched exactly, letter case
    included. *)
Theorem unknown_verb_not_handled
        (msg cmd : string) (tokens : list string) (w : World) :
  split_ws msg = cmd :: tokens ->
  mem cmd verbs = false ->
  serve msg w = (Ok Continue, logged (Send "Not handled") w).
Proof.
  intros Hsplit Hverb. unfold serve. rewrite Hsplit.
  cbn [index nth_error]. rewrite bind_lift.
  unfold mem, verbs in Hverb. cbn [existsb] in Hverb.
  repeat (apply orb_false_iff in Hverb; destruct Hverb as [? Hverb]).
  repeat match goal with
         | H : String.eqb cmd ?s = false |- _ => rewrite H; clear H
         end.
  reflexivity.
Qed.

Lemma unknown_verb_not_handled_witness :
  serve "stop now" recording_world
  = (Ok Continue, logged (Send "Not handled") recording_world).
Proof.
  apply (unknown_verb_not_handled "stop now" "stop" ["now"] recording_world);
    reflexivity.
Defined.

Lemma split_ws_aux_blank (cs : list ascii) :
  forallb is_space cs = true -> split_ws_aux cs [] = [].
Proof.
  induction cs as [|c cs IH]; cbn; [reflexivity|].
  intros H. apply andb_true_iff in H as [Hc Hcs]. rewrite Hc. now apply IH.
Qed.

(** A message without a token (empty, or white space only) has no
    [parts[0]]: the loop dies with [IndexError] and sends nothing. *)
Theorem blank_message_is_fatal (msg : string) (rest : list string) (w : World) :
  forallb is_space (list_ascii_of_string msg) = true ->
  serve msg w = (Raise IndexError, w)
  /\ (is_running w = true -> serve_loop (msg :: rest) w = (Died IndexError, w)).
Proof.
  intros Hblank.
  assert (Hserve : serve msg w = (Raise IndexError, w)).
  { unfold serve, split_ws. now rewrite (split_ws_aux_blank _ Hblank). }
  split; [exact Hserve|]. intros Hrun. now apply serve_loop_dies.
Qed.

Lemma blank_message_is_fatal_witness :
  serve "   " idle_world = (Raise IndexError, idle_world)
  /\ (is_running idle_world = true ->
      serve_loop ["   "; "Stop"] idle_world = (Died IndexError, idle_world)).
Proof. apply (blank_message_is_fatal "   " ["Stop"] idle_world). reflexivity. Defined.

(** [GetGains] on a controller without a camera: [get_gains] returns
    [None], indexing it raises [TypeError], and the loop dies without a
    reply. *)
Theorem get_gains_without_camera_is_fatal
        (msg : string) (tokens rest : list string) (w : World) :
  split_ws msg = "GetGains" :: tokens ->
  camera (controller w) = None ->
  serve msg w = (Raise TypeError, w)
  /\ (is_running w = true -> serve_loop (msg :: rest) w = (Died TypeError, w)).
Proof.
  intros Hsplit Hcam.
  assert (Hserve : serve msg w = (Raise TypeError, w)).
  { rewrite (serve_get_gains msg "GetGains" tokens w Hsplit eq_refl).
    unfold parameter_callback, get_gains, bind, self_camera. now rewrite Hcam. }
  split; [exact Hserve|]. intros Hrun. now apply serve_loop_dies.
Qed.

Lemma get_gains_without_camera_is_fatal_witness :
  serve "GetGains" bare_world = (Raise TypeError, bare_world)
  /\ (is_running bare_world = true ->
      serve_loop ["GetGains"; "Stop"] bare_world = (Died TypeError, bare_world)).
Proof.
  apply (get_gains_without_camera_is_fatal "GetGains" [] ["Stop"] bare_world);
    reflexivity.
Defined.



Lemma replies_length_logged (e : Event) (w : World) :
  (length (replies (logged e w)) <= S (length (replies w)))%nat.
Proof.
  rewrite replies_logged, length_app. destruct e; cbn; lia.
Qed.

(** The lock step of requests and replies over the whole loop: if the
    loop is left waiting for the next request, every request of the inbox
    has been answered exactly once; however the loop ends, it has sent at
    most one reply per request. *)
Theorem loop_answers_in_lock_step (inbox : list string) (w : World) :
  match serve_loop inbox w with
  | (Blocked, w') =>
      length (replies w') = (length (replies w) + length inbox)%nat
  | (_, w') =>
      (length (replies w') <= length (replies w) + length inbox)%nat
  end.
Proof.
  revert w. induction inbox as [|msg rest IH]; intros w; cbn [serve_loop].
  - destruct (is_running w); cbn; lia.
  - destruct (is_running w); cbn [negb]; [|cbn; lia].
    pose proof (serve_replies msg w) as Hone.
    destruct (serve msg w) as [[[|]|e] w1].
    + destruct Hone as [reply Hone]. specialize (IH w1).
      destruct (serve_loop rest w1) as [[| |e] w2];
        rewrite Hone, length_app in IH; cbn [length] in *; lia.
    + destruct Hone as [reply Hone]. rewrite Hone, length_app. cbn. lia.
    + destruct Hone as [Hone | [_ Hone]]; rewrite Hone;
        rewrite ?length_app; cbn; lia.
Qed.

(* ================================================================= *)
(** ** More on starting a recording *)

Section StartRecordingRun.

Local Arguments path_join : simpl never.
Local Arguments recording_name : simpl never.
Local Arguments mem : simpl never.
Local Arguments String.append : simpl never.
Local Arguments index_last : simpl never.
Local Arguments split_char : simpl never.

Variables (filename path : string) (experiment recording quality : Z).
Variables (w : World) (c : Camera.t) (last : string).

Hypothesis camera_present : camera (controller w) = Some c.
Hypothesis not_recording : Camera.recording c = false.
Hypothesis last_component : index_last (split_char "/" path) = Ok last.

(** Everything a successful call does. *)
Lemma start_recording_run :
  let rec_path :=
    path_join (data_path (controller w))
              (recording_name last experiment recording) in
  let file_base := path_join rec_path filename in
  let there :=
    (mem rec_path (fs_dirs (fs w))
     || mem rec_path (map fst (fs_files (fs w))))%bool in
  (there || negb (mem rec_path (fs_denied (fs w))))%bool = true ->
  mem (file_base ++ "_params.json")%string (fs_denied (fs w)) = false ->
  exists w',
    start_recording filename experiment recording (Some path) quality w
    = (Ok (Some rec_path), w')
    /\ read_json (file_base ++ "_params.json")%string (fs w')
       = Some (mkParams rec_path experiment recording
                        (file_base ++ ".h264")%string
                        (fst (Camera.resolution c)) (snd (Camera.resolution c))
                        (Camera.framerate c) (Camera.sync_mode c)
                        (Camera.wait_for_trigger c) (Camera.trigger_timeout c)
                        (Camera.awb_mode c) (Camera.awb_gains c)
                        (Camera.brightness c) (Camera.zoom c)
                        (Camera.vflip c) (Camera.hflip c))
    /\ log w'
       = (log w ++ (if there then [] else [MakeDirs rec_path])
                ++ [WriteFile (file_base ++ "_params.json")%string;
                    CamStartRecording (file_base ++ ".h264")%string quality])%list
    /\ controller w'
       = mkController (data_path (controller w)) (closed (controller w))
                      (Some (Camera.set_recording true c))
    /\ fs_dirs (fs w')
       = (if there then fs_dirs (fs w) else rec_path :: fs_dirs (fs w))
    /\ is_running w' = is_running w.
Proof.
  cbv zeta.
  destruct w as [[base cl cam] f running lg]. cbn [controller camera] in *.
  subst cam.
  destruct c as [fr res vf hf zm am ag em ss es br sm wft tto rec prev clo].
  cbn in not_recording. subst rec.
  cbn [fs data_path]. intros Hdir Hfile.
  unfold start_recording. cbn. rewrite last_component. cbn.
  destruct (mem _ (fs_dirs f) || mem _ (map fst (fs_files f)))%bool; cbn in *.
  - unfold write_json at 1; unfold bind at 1. cbn. rewrite Hfile. cbn.
    eexists. split; [reflexivity|].
    unfold read_json. cbn. rewrite String.eqb_refl. cbn.
    rewrite <- ?app_assoc. repeat split; reflexivity.
  - apply negb_true_iff in Hdir.
    unfold makedirs at 1; unfold bind at 1. cbn. rewrite Hdir. cbn.
    unfold write_json at 1; unfold bind at 1. cbn. rewrite Hfile. cbn.
    eexists. split; [reflexivity|].
    unfold read_json. cbn. rewrite String.eqb_refl. cbn.
    rewrite <- ?app_assoc. repeat split; reflexivity.
Qed.

(** The directory is made and then the parameter file cannot be
    written. *)
Lemma start_recording_orphan :
  let rec_path :=
    path_join (data_path (controller w))
              (recording_name last experiment recording) in
  let file_base := path_join rec_path filename in
  (mem rec_path (fs_dirs (fs w))
   || mem rec_path (map fst (fs_files (fs w))))%bool = false ->
  mem rec_path (fs_denied (fs w)) = false ->
  mem (file_base ++ "_params.json")%string (fs_denied (fs w)) = true ->
  exists w',
    start_recording filename experiment recording (Some path) quality w
    = (Raise IOError, w')
    /\ fs_dirs (fs w') = rec_path :: fs_dirs (fs w)
    /\ fs_files (fs w') = fs_files (fs w)
    /\ log w' = (log w ++ [MakeDirs rec_path])%list
    /\ controller w' = controller w.
Proof.
  cbv zeta.
  destruct w as [[base cl cam] f running lg]. cbn [controller camera] in *.
  subst cam.
  destruct c as [fr res vf hf zm am ag em ss es br sm wft tto rec prev clo].
  cbn in not_recording. subst rec.
  cbn [fs data_path]. intros Hthere Hdir Hfile.
  unfold start_recording. cbn. rewrite last_component. cbn.
  rewrite Hthere. cbn.
  unfold makedirs at 1; unfold bind at 1. cbn. rewrite Hdir. cbn.
  unfold write_json at 1; unfold bind at 1. cbn. rewrite Hfile. cbn.
  eexists. split; [reflexivity|]. repeat split; reflexivity.
Qed.

End StartRecordingRun.

(** What a successful call tells about the state it started from. *)
Lemma start_recording_success_inv
      (w w' : World) (filename path rec_path : string)
      (experiment recording quality : Z) :
  start_recording filename experiment recording (Some path) quality w
  = (Ok (Some rec_path), w') ->
  exists c last,
    camera (controller w) = Some c
    /\ Camera.recording c = false
    /\ index_last (split_char "/" path) = Ok last
    /\ rec_path = path_join (data_path (controller w))
                            (recording_name last experiment recording)
    /\ ((mem rec_path (fs_dirs (fs w))
         || mem rec_path (map fst (fs_files (fs w))))
        || negb (mem rec_path (fs_denied (fs w))))%bool = true
    /\ mem (path_join rec_path filename ++ "_params.json")%string
           (fs_denied (fs w)) = false.
Proof.
  intros Hcall.
  destruct (camera (controller w)) as [c|] eqn:Hc.
  2:{ unfold start_recording, bind in Hcall.
      rewrite (camera_idle_absent w Hc) in Hcall. discriminate. }
  destruct (Camera.recording c) eqn:Hr.
  { unfold start_recording, bind in Hcall.
    rewrite (camera_idle_recording w c Hc Hr) in Hcall. discriminate. }
  destruct (split_char_last "/" path) as [last Hlast].
  pose proof (start_recording_succeeds filename path experiment recording
                quality w c last Hc Hr Hlast) as Hgood.
  pose proof (start_recording_io_error filename path experiment recording
                quality w c last Hc Hr Hlast) as Hbad.
  cbv zeta in Hgood, Hbad.
  exists c, last.
  set (dir := path_join (data_path (controller w))
                        (recording_name last experiment recording)) in *.
  destruct (mem dir (fs_dirs (fs w)) || mem dir (map fst (fs_files (fs w))))%bool
    eqn:Hthere,
    (mem dir (fs_denied (fs w))) eqn:Hdenied,
    (mem (path_join dir filename ++ "_params.json") (fs_denied (fs w))) eqn:Hfile;
    cbn in Hgood, Hbad;
    try (destruct (Hbad eq_refl) as (e & w1 & E & _);
         rewrite E in Hcall; discriminate);
    destruct (Hgood eq_refl eq_refl) as (w1 & c1 & params & E & _);
    rewrite E in Hcall; injection Hcall as <- <-;
    rewrite ?Hthere, ?Hdenied, ?Hfile; repeat split; auto.
Qed.

(** A second start, with any arguments, after a successful one is
    ignored: [start_recording] returns [None] and changes nothing, and a
    [Start] on the wire is answered with the empty string. *)
Theorem second_start_is_ignored
        (w w' : World) (filename path rec_path : string)
        (experiment recording quality : Z) :
  start_recording filename experiment recording (Some path) quality w
  = (Ok (Some rec_path), w') ->
  (forall filename' experiment' recording' path' quality',
      start_recording filename' experiment' recording' path' quality' w'
      = (Ok None, w'))
  /\ (forall msg tokens args,
         split_ws msg = "Start" :: tokens ->
         start_arguments tokens (0, 1, None) = Ok args ->
         serve msg w' = (Ok Continue, logged (Send "") w')).
Proof.
  intros Hcall.
  destruct (start_recording_success_inv _ _ _ _ _ _ _ _ Hcall)
    as (c & last & Hc & Hr & Hlast & -> & Hdir & Hfile).
  destruct (start_recording_run filename path experiment recording quality
              w c last Hc Hr Hlast Hdir Hfile)
    as (w1 & E & _ & _ & Hctl & _).
  rewrite E in Hcall. injection Hcall as <-.
  assert (Hidle : camera_idle w1 = (Ok false, w1)).
  { apply camera_idle_recording with (Camera.set_recording true c);
      [now rewrite Hctl | reflexivity]. }
  assert (Hagain : forall filename' experiment' recording' path' quality',
             start_recording filename' experiment' recording' path' quality' w1
             = (Ok None, w1)).
  { intros. unfold start_recording, bind. now rewrite Hidle. }
  split; [exact Hagain|].
  intros msg tokens [[e r] p] Hsplit Hargs.
  rewrite (serve_start msg tokens w1 e r p Hsplit Hargs).
  unfold bind at 1. unfold start_callback. now rewrite Hagain.
Qed.

Lemma second_start_is_ignored_witness :
  start_recording "rpicamera_video" 7 8 (Some "/data/other") 25 scenario_world
  = (Ok None, scenario_world)
  /\ serve "Start Experiment=7" scenario_world
     = (Ok Continue, logged (Send "") scenario_world).
Proof.
  destruct (second_start_is_ignored
              idle_world scenario_world "rpicamera_video" "/data/20240101_1200"
              "/rec/20240101_1200_experiment_2_recording_3" 2 3 25 eq_refl)
    as [H1 H2].
  split.
  - apply H1.
  - apply (H2 _ ["Experiment=7"] (7, 1, None)); reflexivity.
Defined.



(** Start and then stop: the camera is exactly as it was before the
    start; only the file system and the log remember the recording. *)
Theorem start_then_stop_restores_camera
        (w w' : World) (filename path rec_path : string)
        (experiment recording quality : Z) :
  start_recording filename experiment recording (Some path) quality w
  = (Ok (Some rec_path), w') ->
  exists w'',
    stop_recording w' = (Ok tt, w'')
    /\ controller w'' = controller w
    /\ fs w'' = fs w'
    /\ log w'' = (log w' ++ [CamStopRecording])%list.
Proof.
  intros Hcall.
  destruct (start_recording_success_inv _ _ _ _ _ _ _ _ Hcall)
    as (c & last & Hc & Hr & Hlast & -> & Hdir & Hfile).
  destruct (start_recording_run filename path experiment recording quality
              w c last Hc Hr Hlast Hdir Hfile)
    as (w1 & E & _ & _ & Hctl & _).
  rewrite E in Hcall. injection Hcall as <-.
  destruct w1 as [ctl1 f1 run1 lg1]. cbn [controller] in Hctl. subst ctl1.
  destruct w as [[base cl cam] f running lg]. cbn [controller camera] in *.
  subst cam.
  destruct c as [fr res vf hf zm am ag em ss es br sm wft tto rec prev clo].
  cbn in Hr. subst rec.
  eexists. split; [reflexivity|]. repeat split; reflexivity.
Qed.

Lemma start_then_stop_restores_camera_witness :
  exists w'',
    stop_recording scenario_world = (Ok tt, w'')
    /\ controller w'' = controller idle_world
    /\ fs w'' = fs scenario_world
    /\ log w'' = (log scenario_world ++ [CamStopRecording])%list.
Proof.
  apply (start_then_stop_restores_camera
           idle_world scenario_world "rpicamera_video" "/data/20240101_1200"
           "/rec/20240101_1200_experiment_2_recording_3" 2 3 25).
  reflexivity.
Defined.

(** When the recording directory has to be made and the parameter file
    then cannot be written, [start_recording] raises [IOError] after the
    directory is made: the empty directory stays behind, no file is
    written and the camera is untouched. *)
Theorem failed_write_leaves_directory
        (w : World) (c : Camera.t) (filename path last : string)
        (experiment recording quality : Z) :
  camera (controller w) = Some c ->
  Camera.recording c = false ->
  index_last (split_char "/" path) = Ok last ->
  let rec_path :=
    path_join (data_path (controller w))
              (recording_name last experiment recording) in
  (mem rec_path (fs_dirs (fs w))
   || mem rec_path (map fst (fs_files (fs w))))%bool = false ->
  mem rec_path (fs_denied (fs w)) = false ->
  mem (path_join rec_path filename ++ "_params.json")%string
      (fs_denied (fs w)) = true ->
  exists w',
    start_recording filename experiment recording (Some path) quality w
    = (Raise IOError, w')
    /\ fs_dirs (fs w') = rec_path :: fs_dirs (fs w)
    /\ fs_files (fs w') = fs_files (fs w)
    /\ log w' = (log w ++ [MakeDirs rec_path])%list
    /\ controller w' = controller w.
Proof.
  intros Hc Hr Hlast rec_path.
  exact (start_recording_orphan filename path experiment recording quality
           w c last Hc Hr Hlast).
Qed.

Lemma failed_write_leaves_directory_witness :
  exists w',
    start_recording "rpicamera_video" 2 3 (Some "/data/20240101_1200") 25
                    unwritable_world
    = (Raise IOError, w')
    /\ fs_dirs (fs w')
       = "/rec/20240101_1200_experiment_2_recording_3"
           :: fs_dirs (fs unwritable_world)
    /\ fs_files (fs w') = fs_files (fs unwritable_world)
    /\ log w' = (log unwritable_world
                     ++ [MakeDirs "/rec/20240101_1200_experiment_2_recording_3"])%list
    /\ controller w' = controller unwritable_world.
Proof.
  apply (failed_write_leaves_directory
           unwritable_world idle_camera "rpicamera_video"
           "/data/20240101_1200" "20240101_1200" 2 3 25);
    reflexivity.
Defined.

(* ================================================================= *)
(** ** Where the recording directory lies *)

Lemma forallb_rev {A : Type} (p : A -> bool) (xs : list A) :
  forallb p xs = true -> forallb p (rev xs) = true.
Proof.
  rewrite !forallb_forall. intros H x Hx. apply H. now apply in_rev.
Qed.

(** No field of a split string contains the separator. *)
Lemma split_char_aux_free (sep : ascii) (cs cur : list ascii) :
  forallb (fun c => negb (Ascii.eqb c sep)) cur = true ->
  Forall (fun s => free_of sep s = true) (split_char_aux sep cs cur).
Proof.
  revert cur. induction cs as [|c cs IH]; intros cur Hcur; cbn [split_char_aux].
  - constructor; [|constructor]. unfold free_of.
    rewrite list_ascii_of_string_of_list_ascii. now apply forallb_rev.
  - destruct (Ascii.eqb c sep) eqn:Hc.
    + constructor; [|now apply IH]. unfold free_of.
      rewrite list_ascii_of_string_of_list_ascii. now apply forallb_rev.
    + apply IH. cbn. now rewrite Hc.
Qed.

Lemma index_last_In {A : Type} (xs : list A) (x : A) :
  index_last xs = Ok x -> In x xs.
Proof.
  unfold index_last. destruct (rev xs) as [|y ys] eqn:Hrev; [discriminate|].
  intros [= <-]. apply in_rev. rewrite Hrev. now left.
Qed.

Lemma last_component_free (path last : string) :
  index_last (split_char "/" path) = Ok last -> free_of "/" last = true.
Proof.
  intros Hlast. apply index_last_In in Hlast.
  pose proof (split_char_aux_free "/" (list_ascii_of_string path) [] eq_refl) as H.
  rewrite Forall_forall in H. now apply H.
Qed.

Lemma free_of_starts (s : string) :
  free_of "/" s = true -> starts_with_sep s = false.
Proof.
  destruct s as [|a s]; [reflexivity|].
  unfold free_of. cbn [list_ascii_of_string forallb].
  intros H. apply andb_true_iff in H as [Ha _].
  destruct a as [[] [] [] [] [] [] [] []]; try reflexivity; discriminate.
Qed.

Lemma recording_name_relative (last : string) (experiment recording : Z) :
  free_of "/" last = true ->
  starts_with_sep (recording_name last experiment recording) = false.
Proof.
  intros Hfree. destruct last as [|a s]; [reflexivity|].
  apply free_of_starts in Hfree. exact Hfree.
Qed.

Lemma path_join_under (dir name : string) :
  starts_with_sep name = false -> prefix dir (path_join dir name) = true.
Proof.
  intros H. unfold path_join. rewrite H.
  destruct (String.eqb dir "" || ends_with_sep dir)%bool; apply prefix_append.
Qed.

(** Whatever path the client sends, the directory of a successful start
    lies under the controller's data path: only the last component of
    the path is used, and it holds no separator. *)
Theorem recording_directory_under_data_path
        (w w' : World) (filename path rec_path : string)
        (experiment recording quality : Z) :
  start_recording filename experiment recording (Some path) quality w
  = (Ok (Some rec_path), w') ->
  prefix (data_path (controller w)) rec_path = true
  /\ exists last,
      index_last (split_char "/" path) = Ok last
      /\ free_of "/" last = true
      /\ rec_path = path_join (data_path (controller w))
                              (recording_name last experiment recording).
Proof.
  intros Hcall.
  destruct (start_recording_success_inv _ _ _ _ _ _ _ _ Hcall)
    as (c & last & _ & _ & Hlast & -> & _).
  pose proof (last_component_free path last Hlast) as Hfree.
  split.
  - apply path_join_under. now apply recording_name_relative.
  - exists last. auto.
Qed.

Lemma recording_directory_under_data_path_witness :
  prefix (data_path (controller idle_world))
         "/rec/20240101_1200_experiment_2_recording_3" = true
  /\ exists last,
      index_last (split_char "/" "/data/20240101_1200") = Ok last
      /\ free_of "/" last = true
      /\ "/rec/20240101_1200_experiment_2_recording_3"
         = path_join (data_path (controller idle_world))
                     (recording_name last 2 3).
Proof.
  apply (recording_directory_under_data_path
           idle_world scenario_world "rpicamera_video" "/data/20240101_1200"
           "/rec/20240101_1200_experiment_2_recording_3" 2 3 25).
  reflexivity.
Defined.

Lemma index_last_cons {A : Type} (x y : A) (xs : list A) :
  index_last xs = Ok y -> index_last (x :: xs) = Ok y.
Proof.
  unfold index_last. cbn [rev].
  destruct (rev xs) as [|z zs]; [discriminate|]. intros [= <-]. reflexivity.
Qed.

Lemma split_char_aux_trailing (sep : ascii) (cs cur : list ascii) :
  index_last (split_char_aux sep (cs ++ [sep]) cur) = Ok "".
Proof.
  revert cur. induction cs as [|c cs IH]; intros cur; cbn [app split_char_aux].
  - rewrite Ascii.eqb_refl. reflexivity.
  - destruct (Ascii.eqb c sep); [apply index_last_cons|]; apply IH.
Qed.

Lemma list_ascii_of_string_app (a b : string) :
  list_ascii_of_string (a ++ b)
  = (list_ascii_of_string a ++ list_ascii_of_string b)%list.
Proof. induction a as [|x a IH]; cbn; [reflexivity | now rewrite IH]. Qed.

(** A path that ends in a separator has an empty last component: a
    successful start then records into
    [_experiment_<experiment>_recording_<recording>], without the name
    the client meant. *)
Theorem trailing_separator_drops_name
        (w w' : World) (filename path rec_path : string)
        (experiment recording quality : Z) :
  start_recording filename experiment recording (Some (path ++ "/")) quality w
  = (Ok (Some rec_path), w') ->
  rec_path
  = path_join (data_path (controller w))
              ("_experiment_" ++ str_of_int experiment
                 ++ "_recording_" ++ str_of_int recording).
Proof.
  intros Hcall.
  destruct (start_recording_success_inv _ _ _ _ _ _ _ _ Hcall)
    as (c & last & _ & _ & Hlast & -> & _).
  unfold split_char in Hlast.
  rewrite list_ascii_of_string_app in Hlast.
  change (list_ascii_of_string "/") with ["/"%char] in Hlast.
  rewrite split_char_aux_trailing in Hlast. injection Hlast as <-.
  reflexivity.
Qed.

Lemma trailing_separator_drops_name_witness :
  "/rec/_experiment_2_recording_3"
  = path_join (data_path (controller idle_world))
              ("_experiment_" ++ str_of_int 2 ++ "_recording_" ++ str_of_int 3).
Proof.
  apply (trailing_separator_drops_name
           idle_world
           (snd (start_callback 2 3 (Some "/data/20240101_1200/") idle_world))
           "rpicamera_video" "/data/20240101_1200"
           "/rec/_experiment_2_recording_3" 2 3 25).
  reflexivity.
Defined.

(* ================================================================= *)
(** ** Setters on an idle camera *)

(** While the camera is not recording, each of the four guarded setters
    writes its value: the getter that follows returns it, the other
    three attributes and the recording flag are as before, and nothing is
    logged. *)
Theorem idle_setters_round_trip
        (w : World) (c : Camera.t)
        (fps : pyfloat) (xy : Z * Z) (v h : bool) :
  camera (controller w) = Some c ->
  Camera.recording c = false ->
  framerate_setter fps w = (Ok tt, with_camera (Camera.set_framerate fps c) w)
  /\ framerate (with_camera (Camera.set_framerate fps c) w)
     = (Ok (Some fps), with_camera (Camera.set_framerate fps c) w)
  /\ resolution_setter xy w = (Ok tt, with_camera (Camera.set_resolution xy c) w)
  /\ resolution (with_camera (Camera.set_resolution xy c) w)
     = (Ok (Some xy), with_camera (Camera.set_resolution xy c) w)
  /\ vflip_setter v w = (Ok tt, with_camera (Camera.set_vflip v c) w)
  /\ vflip (with_camera (Camera.set_vflip v c) w)
     = (Ok (Some v), with_camera (Camera.set_vflip v c) w)
  /\ hflip_setter h w = (Ok tt, with_camera (Camera.set_hflip h c) w)
  /\ hflip (with_camera (Camera.set_hflip h c) w)
     = (Ok (Some h), with_camera (Camera.set_hflip h c) w).
Proof.
  intros Hc Hr.
  unfold framerate_setter, resolution_setter, vflip_setter, hflip_setter, bind.
  rewrite (camera_idle_ready w c Hc Hr).
  destruct w as [[base cl cam] f running lg]. cbn [controller camera] in Hc.
  subst cam. repeat split; reflexivity.
Qed.

Lemma idle_setters_round_trip_witness :
  resolution_setter (320, 240) idle_world
  = (Ok tt, with_camera (Camera.set_resolution (320, 240) idle_camera) idle_world)
  /\ resolution (with_camera (Camera.set_resolution (320, 240) idle_camera)
                             idle_world)
     = (Ok (Some (320, 240)),
        with_camera (Camera.set_resolution (320, 240) idle_camera) idle_world).
Proof.
  pose proof (idle_setters_round_trip
                idle_world idle_camera (Fin 60) (320, 240) true true
                eq_refl eq_refl) as H.
  split; apply H.
Defined.

(* ================================================================= *)
(** ** The zoom guard, exactly *)

Lemma flt_number (a b : pyfloat) : flt a b = true -> is_number a = true.
Proof. now destruct a, b. Qed.







